(** * Trainingapp: the record store, the fiscal calendar and the aggregations

    A shallow embedding of the data service ([DataService]), of the helper
    [getFiscalYear] and of the aggregation code of the yearly report, the
    analysis view and the performance view, together with the properties the
    specification states about them.

    Conventions of the embedding:
    - a JavaScript number that the code divides, sums or prints is a binary64
      float ([PrimFloat.float]); a number that is an integer by construction
      (a calendar year or month read behind the [isNaN] guard, a [++]
      counter, an array length) is a [Z] or a [nat];
    - a string is a [string] of 8-bit code units;
    - a plain object used as a record or as an accumulator is a
      [gmap string _] of its own properties, and a property read also
      sees the names inherited from [Object.prototype];
    - a method that can throw returns a [completion];
    - the payload of a method of the store is an object of its own, as the
      forms and the CSV import build it: it is none of the stored records,
      so what a method writes on it shows only once it is stored;
    - what the browser supplies (date parsing, locale month names,
      [parseFloat], [JSON.stringify], the storage quota) is the [Platform]
      the development is parameterised by. *)

From Stdlib Require Import ZArith Floats Uint63 Ascii.
From stdpp Require Import gmap strings list pretty.

Set Warnings "-register-all,-clear-no-such-hyp".
Local Open Scope Z_scope.

(** ** JavaScript numbers *)

Module Num.

(** The Number of an integer; exact below 2^53 in magnitude. *)
Definition of_Z (z : Z) : float :=
  match z with
  | Z0 => 0%float
  | Zpos _ => PrimFloat.of_uint63 (Uint63.of_Z z)
  | Zneg p => (- PrimFloat.of_uint63 (Uint63.of_Z (Zpos p)))%float
  end.

Definition of_nat (n : nat) : float := of_Z (Z.of_nat n).

(** The integer a finite Number denotes, when it denotes one. *)
Definition integer_value (x : float) : option Z :=
  match Prim2SF x with
  | S754_zero _ => Some 0
  | S754_finite s m e =>
      let mag :=
        if 0 <=? e then Some (Zpos m * 2 ^ e)
        else if Zpos m mod 2 ^ (- e) =? 0 then Some (Zpos m / 2 ^ (- e))
        else None in
      (fun v : Z => if s then - v else v) <$> mag
  | S754_infinity _ | S754_nan => None
  end.

(** [Math.ceil]. *)
Definition Math_ceil (x : float) : float :=
  match Prim2SF x with
  | S754_finite s m e =>
      if 0 <=? e then x
      else
        let q := Zpos m / 2 ^ (- e) in
        let r := Zpos m mod 2 ^ (- e) in
        if s then (if q =? 0 then (-0)%float else of_Z (- q))
        else of_Z (if r =? 0 then q else q + 1)
  | _ => x
  end.

(** [x === 0 || isNaN(x)]: the falsy Numbers. *)
Definition falsy (x : float) : bool :=
  PrimFloat.is_nan x || PrimFloat.is_zero x.

(** [SameValueZero] on Numbers, the equality of [Set]. *)
Definition same_value_zero (x y : float) : bool :=
  PrimFloat.eqb x y || (PrimFloat.is_nan x && PrimFloat.is_nan y).

(** [Number::toString] (radix 10). An integer below 2^53 in magnitude
    prints as its decimal digits; [other] prints every other finite
    Number (a fraction, or the shortest digits of a larger integer). *)
Definition toString (other : float -> string) (x : float) : string :=
  if PrimFloat.is_nan x then "NaN"
  else if PrimFloat.is_infinity x then
    (if PrimFloat.ltb x 0 then "-Infinity" else "Infinity")
  else match integer_value x with
       | Some z => if Z.abs z <? 2 ^ 53 then pretty z else other x
       | None => other x
       end.

(** The digits of [n] with the point before the last two, as
    [toFixed(2)] lays them out. *)
Definition two_decimals (n : Z) : string :=
  pretty (n / 100) +:+ "." +:+
  (if n mod 100 <? 10 then "0" else "") +:+ pretty (n mod 100).

(** [x.toFixed(2)]: the nearest multiple of 1/100, the larger one on a
    tie, printed with two decimals; from 10^21 on, [toString]. *)
Definition toFixed2 (other : float -> string) (x : float) : string :=
  match Prim2SF x with
  | S754_nan => "NaN"
  | S754_infinity _ => toString other x
  | S754_zero _ => "0.00"
  | S754_finite s m e =>
      if 0 <=? e then
        if Zpos m * 2 ^ e <? 10 ^ 21
        then (if s then "-" else "") +:+ two_decimals (Zpos m * 2 ^ e * 100)
        else toString other x
      else
        (* the nearest integer to m * 100 / 2^(-e), half up *)
        let n := (2 * (Zpos m * 100) + 2 ^ (- e)) / (2 * 2 ^ (- e)) in
        (if s then "-" else "") +:+ two_decimals n
  end.

End Num.

(** ** Dates *)

(** A [Date] object: its time value is NaN ([InvalidDate]) or it denotes, in
    local time, a calendar day. [month] is zero-based as [getMonth] returns
    it. The hour and below are never read by the code modelled here. *)
Inductive Date :=
  | InvalidDate
  | LocalDate (year month day : Z).

Definition getFullYear (d : Date) : option Z :=
  match d with InvalidDate => None | LocalDate y _ _ => Some y end.

Definition getMonth (d : Date) : option Z :=
  match d with InvalidDate => None | LocalDate _ m _ => Some m end.

(** [getDate()]: the day of the month, NaN for an invalid date. *)
Definition getDate (d : Date) : float :=
  match d with InvalidDate => PrimFloat.nan | LocalDate _ _ day => Num.of_Z day end.

Definition days_in_month (y m : Z) : Z :=
  if m =? 1 then
    (if (y mod 4 =? 0) && (negb (y mod 100 =? 0) || (y mod 400 =? 0))
     then 29 else 28)
  else if (m =? 3) || (m =? 5) || (m =? 8) || (m =? 10) then 30
  else 31.

(** The calendar days a [Date] can denote. *)
Definition valid_date (d : Date) : Prop :=
  match d with
  | InvalidDate => False
  | LocalDate y m day =>
      -271821 <= y <= 275760 /\ 0 <= m <= 11 /\ 1 <= day <= days_in_month y m
  end.

(** ** Strings *)

Module Str.

(** The code units [String.prototype.trim] strips, among those below 256:
    tab, line feed, vertical tab, form feed, carriage return, space and
    the no-break space. *)
Definition is_white (c : ascii) : bool :=
  let n := N_of_ascii c in
  ((9 <=? n) && (n <=? 13) || (n =? 32) || (n =? 160))%N.

Fixpoint trimStart (s : string) : string :=
  match s with
  | String c s' => if is_white c then trimStart s' else s
  | EmptyString => EmptyString
  end.

Definition trim (s : string) : string :=
  String.rev (trimStart (String.rev (trimStart s))).

(** [s.replace(/-/g, '/')]. *)
Fixpoint replace_dashes (s : string) : string :=
  match s with
  | String c s' =>
      String (if Ascii.eqb c "-" then "/"%char else c) (replace_dashes s')
  | EmptyString => EmptyString
  end.

(** [a.join(sep)] on strings. *)
Fixpoint join (sep : string) (l : list string) : string :=
  match l with
  | [] => ""
  | [s] => s
  | s :: l' => s +:+ sep +:+ join sep l'
  end.

End Str.

(** ** Values *)

(** The values a property of a record can hold: what a form field, a CSV
    cell or a parsed JSON document gives. *)
Inductive value :=
  | VUndef
  | VNull
  | VBool (b : bool)
  | VNum (x : float)
  | VStr (s : string)
  | VArr (l : list value).

(** A plain object: its own properties, by name. *)
Abbreviation obj := (gmap string value).

(** [o[k]] on a record: [undefined] when the property is absent. (No record
    field the code reads bears a name of [Object.prototype].) *)
Definition get (o : obj) (k : string) : value := default VUndef (o !! k).

(** [o[k] = v]. *)
Definition set (o : obj) (k : string) (v : value) : obj := <[k := v]> o.

(** [ToBoolean]. *)
Definition truthy (v : value) : bool :=
  match v with
  | VUndef | VNull => false
  | VBool b => b
  | VNum x => negb (Num.falsy x)
  | VStr s => negb (String.eqb s "")
  | VArr _ => true
  end.

(** [a === b]. Two arrays are equal only when they are the same object,
    which no comparison in the code modelled here depends on: arrays
    compare unequal. *)
Definition strict_eq (a b : value) : bool :=
  match a, b with
  | VUndef, VUndef | VNull, VNull => true
  | VBool x, VBool y => Bool.eqb x y
  | VNum x, VNum y => PrimFloat.eqb x y
  | VStr x, VStr y => String.eqb x y
  | _, _ => false
  end.

(** [SameValueZero], the equality of a [Set]'s elements. *)
Definition same_value_zero (a b : value) : bool :=
  match a, b with
  | VNum x, VNum y => Num.same_value_zero x y
  | _, _ => strict_eq a b
  end.

(** The names every plain object inherits from [Object.prototype]: a read
    of one of them on an accumulator [{}] yields a function (or, for
    [__proto__], the prototype itself), which is truthy. *)
Definition Object_prototype_names : list string :=
  [ "constructor"; "__defineGetter__"; "__defineSetter__"; "hasOwnProperty";
    "__lookupGetter__"; "__lookupSetter__"; "isPrototypeOf";
    "propertyIsEnumerable"; "toString"; "valueOf"; "__proto__";
    "toLocaleString" ].

Definition inherited (k : string) : bool :=
  bool_decide (k ∈ Object_prototype_names).

(** A thrown exception. *)
Inductive exn := TypeError (msg : string).

Inductive completion (A : Type) :=
  | Normal (a : A)
  | Throw (e : exn).
Arguments Normal {A} a.
Arguments Throw {A} e.

#[export] Instance completion_ret : MRet completion := fun A a => Normal a.

#[export] Instance completion_bind : MBind completion := fun A B k c =>
  match c with
  | Normal a => k a
  | Throw e => Throw e
  end.

(** [l.forEach(x => ...)] on a state [s], stopping at the first throw. *)
Fixpoint forEach {A S} (step : S -> A -> completion S) (s : S) (l : list A)
  : completion S :=
  match l with
  | [] => Normal s
  | x :: l' =>
      match step s x with
      | Normal s' => forEach step s' l'
      | Throw e => Throw e
      end
  end.

(** What a read [acc[k]] finds on an accumulator that started as a plain
    object: an own property, a member of [Object.prototype], or nothing. *)
Inductive slot (A : Type) :=
  | Own (a : A)
  | Inherited
  | Absent.
Arguments Own {A} a.
Arguments Inherited {A}.
Arguments Absent {A}.

Definition read {A} (acc : gmap string A) (k : string) : slot A :=
  match acc !! k with
  | Some a => Own a
  | None => if inherited k then Inherited else Absent
  end.

(** A [Set] of values: its elements in insertion order. *)
Definition Set_has (s : list value) (v : value) : bool :=
  existsb (fun e => same_value_zero e v) s.

Definition Set_add (s : list value) (v : value) : list value :=
  if Set_has s v then s else s ++ [v].

Definition Set_size (s : list value) : nat := length s.

(** ** The platform *)

Class Platform := {
  (** [new Date(s)] on a string. *)
  Date_parse : string -> Date;
  (** [toLocaleString('default', { month: 'long' })] of a valid date, by
      zero-based month. *)
  month_long : Z -> string;
  (** [parseFloat] on a string. *)
  parseFloat_string : string -> float;
  (** [Number::toString] outside the integers below 2^53. *)
  Number_toString_other : float -> string;
  (** [JSON.stringify] of a collection. *)
  JSON_stringify : list obj -> string;
  (** Whether [localStorage.setItem(key, text)] succeeds on a store
      (it throws when the quota is exceeded). *)
  setItem_fits : gmap string string -> string -> string -> bool;
  (** For [name] a member of [Object.prototype]: whether updating
      [({})[name][key].h] throws. It does when [({})[name][key]] is a
      truthy primitive such as a function's [name], or an accessor that
      throws such as [caller]; module code is strict. *)
  member_update_throws : string -> string -> bool;
}.

(** * The program *)

Section Program.
Context {P : Platform}.

(** [String(v)], which is also the property key [v] names and what a
    template literal prints. *)
Fixpoint to_string (v : value) : string :=
  match v with
  | VUndef => "undefined"
  | VNull => "null"
  | VBool b => if b then "true" else "false"
  | VNum x => Num.toString Number_toString_other x
  | VStr s => s
  | VArr l =>
      Str.join ","
        (map (fun e => match e with
                       | VUndef | VNull => ""
                       | _ => to_string e
                       end) l)
  end.

(** [parseFloat(v)]. *)
Definition parseFloat (v : value) : float := parseFloat_string (to_string v).

(** [date.toLocaleString('default', { month: 'long' })]. *)
Definition toLocaleString_month (d : Date) : string :=
  match d with
  | InvalidDate => "Invalid Date"
  | LocalDate _ m _ => month_long m
  end.

(** ** helpers: [getFiscalYear] *)

(** The argument of [getFiscalYear]: a [Date] object or anything else. *)
Inductive date_arg :=
  | DateObj (d : Date)
  | NotDate (v : value).

Definition getFiscalYear (date : date_arg) : string :=
  match date with
  | NotDate _ => ""
  | DateObj d =>
      match getFullYear d, getMonth d with
      | Some year, Some month =>
          let fiscalYear := if month >=? 6 then year else year - 1 in
          "FY " +:+ pretty fiscalYear
      | _, _ => ""
      end
  end.

(** ** config/constants *)

Definition MONTH_ORDER : list string :=
  [ "January"; "February"; "March"; "April"; "May"; "June";
    "July"; "August"; "September"; "October"; "November"; "December" ].

Definition FISCAL_MONTHS : list string :=
  [ "July"; "August"; "September"; "October"; "November"; "December";
    "January"; "February"; "March"; "April"; "May"; "June" ].

Definition TRAINING_DATA : string := "trainingData".
Definition PLANNED_SESSIONS : string := "plannedSessions".

(** ** DataService *)

Record DataService := {
  orgaData : list obj;
  trainingData : list obj;
  plannedSessions : list obj;
  currentUser : string;
}.

(** The service together with what its methods act on outside it. *)
Record World := {
  service : DataService;
  localStorage : gmap string string;
  console : list string;
}.

Definition with_trainingData (w : World) (data : list obj) : World :=
  {| service := {| orgaData := orgaData (service w);
                   trainingData := data;
                   plannedSessions := plannedSessions (service w);
                   currentUser := currentUser (service w) |};
     localStorage := localStorage w;
     console := console w |}.

(** A method: it runs on a world and completes or throws, leaving a world. *)
Definition M (A : Type) : Type := World -> completion A * World.

#[export] Instance M_ret : MRet M := fun A a w => (Normal a, w).

#[export] Instance M_bind : MBind M := fun A B k m w =>
  match m w with
  | (Normal a, w') => k a w'
  | (Throw e, w') => (Throw e, w')
  end.

Definition throw {A} (e : exn) : M A := fun w => (Throw e, w).

Definition lift {A} (c : completion A) : M A := fun w => (c, w).

(** Read [this]. *)
Definition this : M DataService := fun w => (Normal (service w), w).

(** [this.trainingData = data]. *)
Definition set_trainingData (data : list obj) : M unit :=
  fun w => (Normal tt, with_trainingData w data).

(** [StorageService.save]: a failing [setItem] is caught and logged. *)
Definition StorageService_save (key : string) (data : list obj) : M unit :=
  fun w =>
    let text := JSON_stringify data in
    if setItem_fits (localStorage w) key text then
      (Normal tt, {| service := service w;
                     localStorage := <[key := text]> (localStorage w);
                     console := console w |})
    else
      (Normal tt, {| service := service w;
                     localStorage := localStorage w;
                     console := console w ++
                       ["Failed to save data for key " +:+ key] |}).

Definition _saveToLocalStorage : M unit :=
  ds ← this;
  StorageService_save TRAINING_DATA (trainingData ds);;
  ds ← this;
  StorageService_save PLANNED_SESSIONS (plannedSessions ds).

(** What [getEmployeeById] returns. *)
Inductive employee_result :=
  | Null
  | Undefined
  | Employee (emp : obj).

Definition getEmployeeById (ds : DataService) (id : value) : employee_result :=
  if negb (truthy id) then Null
  else
    let normalizedId := Str.trim (to_string id) in
    match List.find
            (fun emp => truthy (get emp "Matricule") &&
                        String.eqb (Str.trim (to_string (get emp "Matricule")))
                                   normalizedId)
            (orgaData ds) with
    | Some emp => Employee emp
    | None => Undefined
    end.

(** [Array.prototype.findIndex]; [None] stands for -1. *)
Fixpoint findIndex {A} (p : A -> bool) (l : list A) : option nat :=
  match l with
  | [] => None
  | x :: l' => if p x then Some 0%nat else S <$> findIndex p l'
  end.

Definition getRecordById (ds : DataService) (id : value) : option obj :=
  List.find (fun record => strict_eq (get record "Id") id) (trainingData ds).

(** [_enrichRecord]. Calling [replace] on a training date that is not a
    string throws. *)
Definition _enrichRecord (ds : DataService) (record : obj) : completion obj :=
  let employee := getEmployeeById ds (get record "Trainee's ID Number") in
  let from_employee (field : string) : value :=
    match employee with
    | Employee emp => get emp field
    | Null | Undefined => VStr "Unknown"
    end in
  let record := set record "Full Name" (from_employee "Full Name") in
  let record := set record "Gender" (from_employee "Gender") in
  let record := set record "Project" (from_employee "PROJET") in
  let record := set record "Cost Center" (from_employee "Cost center") in
  match get record "Training Date" with
  | VStr s =>
      let date := Date_parse (Str.replace_dashes s) in
      let record := set record "Month" (VStr (toLocaleString_month date)) in
      let dayOfMonth := getDate date in
      let record :=
        set record "Week"
          (VStr ("Week " +:+
                 to_string (VNum (Num.Math_ceil (dayOfMonth / 7)%float)))) in
      Normal record
  | _ => Throw (TypeError "record['Training Date'].replace is not a function")
  end.

(** [addRecord]; [now] and [random] are what [Date.now()] and
    [Math.random()] return in the call. *)
Definition addRecord (now random : float) (record : obj) : M unit :=
  let record :=
    set record "Id" (VStr (to_string (VNum now) +:+ to_string (VNum random))) in
  ds ← this;
  let record :=
    set record "Trainer"
      (if truthy (get record "Trainer") then get record "Trainer"
       else VStr (currentUser ds)) in
  enrichedRecord ← lift (_enrichRecord ds record);
  set_trainingData (enrichedRecord :: trainingData ds);;
  _saveToLocalStorage.

Definition updateRecord (updatedRecord : obj) : M unit :=
  ds ← this;
  match findIndex (fun record => strict_eq (get record "Id") (get updatedRecord "Id"))
                  (trainingData ds) with
  | Some index =>
      match trainingData ds !! index with
      | Some original =>
          let updatedRecord := set updatedRecord "Trainer" (get original "Trainer") in
          enrichedRecord ← lift (_enrichRecord ds updatedRecord);
          set_trainingData (<[index := enrichedRecord]> (trainingData ds));;
          _saveToLocalStorage
      | None => throw (TypeError "Cannot read properties of undefined")
      end
  | None => mret tt
  end.

Definition deleteRecord (id : value) : M unit :=
  ds ← this;
  set_trainingData
    (List.filter (fun record => negb (strict_eq (get record "Id") id))
                 (trainingData ds));;
  _saveToLocalStorage.

(** ** Aggregations *)

(** [parseFloat(r['Number of Training Hours']) || 0]. *)
Definition hours_of (r : obj) : float :=
  let x := parseFloat (get r "Number of Training Hours") in
  if Num.falsy x then 0%float else x.

(** [v.length] as the right-hand side of [+=]: the [undefined] a number or
    a boolean yields makes the sum NaN. *)
Definition length_of (v : value) : completion float :=
  match v with
  | VArr l => Normal (Num.of_nat (length l))
  | VStr s => Normal (Num.of_nat (String.length s))
  | VBool _ | VNum _ => Normal PrimFloat.nan
  | VUndef | VNull =>
      Throw (TypeError "Cannot read properties of undefined (reading 'length')")
  end.

(** *** YearlyReport.calculateMonthlyData *)

Record MonthData := {
  operatorsQual : list value;
  operatorsRefresh : list value;
  hoursQual : float;
  hoursRefresh : float;
  qualifRealised : nat;
  refreshRealised : nat;
  qualifPlanned : float;
  refreshPlanned : float;
}.

Definition empty_month : MonthData :=
  {| operatorsQual := []; operatorsRefresh := [];
     hoursQual := 0; hoursRefresh := 0;
     qualifRealised := 0; refreshRealised := 0;
     qualifPlanned := 0; refreshPlanned := 0 |}.

Definition initial_monthlyData : gmap string MonthData :=
  foldl (fun acc month => <[month := empty_month]> acc) ∅ FISCAL_MONTHS.

Definition is_type (r : obj) (field type : string) : bool :=
  strict_eq (get r field) (VStr type).

Definition plan_step (monthlyData : gmap string MonthData) (p : obj)
  : completion (gmap string MonthData) :=
  match get p "plannedDate" with
  | VStr s =>
      let month := toLocaleString_month (Date_parse (Str.replace_dashes s)) in
      match read monthlyData month with
      | Own b =>
          if is_type p "trainingType" "Qualification" then
            n ← length_of (get p "trainees");
            mret (<[month :=
                     {| operatorsQual := operatorsQual b;
                        operatorsRefresh := operatorsRefresh b;
                        hoursQual := hoursQual b; hoursRefresh := hoursRefresh b;
                        qualifRealised := qualifRealised b;
                        refreshRealised := refreshRealised b;
                        qualifPlanned := (qualifPlanned b + n)%float;
                        refreshPlanned := refreshPlanned b |}]> monthlyData)
          else if is_type p "trainingType" "Refreshment" then
            n ← length_of (get p "trainees");
            mret (<[month :=
                     {| operatorsQual := operatorsQual b;
                        operatorsRefresh := operatorsRefresh b;
                        hoursQual := hoursQual b; hoursRefresh := hoursRefresh b;
                        qualifRealised := qualifRealised b;
                        refreshRealised := refreshRealised b;
                        qualifPlanned := qualifPlanned b;
                        refreshPlanned := (refreshPlanned b + n)%float |}]> monthlyData)
          else mret monthlyData
      | Inherited =>
          (* the sum lands on a member of Object.prototype *)
          if is_type p "trainingType" "Qualification"
             || is_type p "trainingType" "Refreshment" then
            _ ← length_of (get p "trainees"); mret monthlyData
          else mret monthlyData
      | Absent => mret monthlyData
      end
  | _ => Throw (TypeError "p.plannedDate.replace is not a function")
  end.

Definition record_step (monthlyData : gmap string MonthData) (r : obj)
  : completion (gmap string MonthData) :=
  let month := to_string (get r "Month") in
  match read monthlyData month with
  | Own b =>
      let hours := hours_of r in
      let traineeId := get r "Trainee's ID Number" in
      if is_type r "Training Type" "Qualification" then
        mret (<[month :=
                 {| operatorsQual := Set_add (operatorsQual b) traineeId;
                    operatorsRefresh := operatorsRefresh b;
                    hoursQual := (hoursQual b + hours)%float;
                    hoursRefresh := hoursRefresh b;
                    qualifRealised := S (qualifRealised b);
                    refreshRealised := refreshRealised b;
                    qualifPlanned := qualifPlanned b;
                    refreshPlanned := refreshPlanned b |}]> monthlyData)
      else if is_type r "Training Type" "Refreshment" then
        mret (<[month :=
                 {| operatorsQual := operatorsQual b;
                    operatorsRefresh := Set_add (operatorsRefresh b) traineeId;
                    hoursQual := hoursQual b;
                    hoursRefresh := (hoursRefresh b + hours)%float;
                    qualifRealised := qualifRealised b;
                    refreshRealised := S (refreshRealised b);
                    qualifPlanned := qualifPlanned b;
                    refreshPlanned := refreshPlanned b |}]> monthlyData)
      else mret monthlyData
  | Inherited =>
      (* a member of Object.prototype has no operatorsQual to call add on *)
      if is_type r "Training Type" "Qualification"
         || is_type r "Training Type" "Refreshment" then
        Throw (TypeError "Cannot read properties of undefined (reading 'add')")
      else mret monthlyData
  | Absent => mret monthlyData
  end.

Definition calculateMonthlyData (yearlyRecords yearlyPlannedSessions : list obj)
  : completion (gmap string MonthData) :=
  monthlyData ← forEach plan_step initial_monthlyData yearlyPlannedSessions;
  forEach record_step monthlyData yearlyRecords.

(** *** Analysis: hours by bucket and sector *)

Record GenderBar := { Male : float; Female : float; label : string }.

(** The [reduce] of [renderWeeklyHoursByGenderChart] ([bucket] is [Week])
    and of [renderMonthlyHoursByGenderChart] ([bucket] is [Month]). *)
Definition hoursByGender_step (bucket : string) (acc : gmap string GenderBar)
    (r : obj) : gmap string GenderBar :=
  let key := to_string (get r bucket) +:+ "-" +:+ to_string (get r "Sector") in
  let acc :=
    match read acc key with
    | Absent => <[key := {| Male := 0; Female := 0; label := key |}]> acc
    | _ => acc
    end in
  match read acc key with
  | Own bar =>
      if is_type r "Gender" "Male" then
        <[key := {| Male := (Male bar + hours_of r)%float;
                    Female := Female bar; label := label bar |}]> acc
      else if is_type r "Gender" "Female" then
        <[key := {| Male := Male bar;
                    Female := (Female bar + hours_of r)%float;
                    label := label bar |}]> acc
      else acc
  | _ => acc
  end.

Definition weeklyHoursByGender (records : list obj) : gmap string GenderBar :=
  foldl (hoursByGender_step "Week") ∅ records.

Definition monthlyHoursByGender (records : list obj) : gmap string GenderBar :=
  foldl (hoursByGender_step "Month") ∅ records.

(** *** Analysis.renderAvgHoursByGenderChart *)

Record Cell := { h : float; c : nat }.

Definition avgHours_init : gmap string (gmap string Cell) :=
  {[ "Qualification" := {[ "Male" := {| h := 0; c := 0 |};
                           "Female" := {| h := 0; c := 0 |} ]};
     "Refreshment" := {[ "Male" := {| h := 0; c := 0 |};
                         "Female" := {| h := 0; c := 0 |} ]} ]}.

Definition avgHours_step (avgHours : gmap string (gmap string Cell)) (r : obj)
  : completion (gmap string (gmap string Cell)) :=
  let type := to_string (get r "Training Type") in
  let gender := to_string (get r "Gender") in
  match read avgHours type with
  | Own row =>
      match read row gender with
      | Own cell =>
          mret (<[type := <[gender := {| h := (h cell + hours_of r)%float;
                                         c := S (c cell) |}]> row]> avgHours)
      | _ => mret avgHours
      end
  | Inherited =>
      if member_update_throws type gender
      then Throw (TypeError "Cannot create property 'h'")
      else mret avgHours
  | Absent => mret avgHours
  end.

Definition avgHours_of (records : list obj)
  : completion (gmap string (gmap string Cell)) :=
  forEach avgHours_step avgHours_init records.

(** [cell.c > 0 ? cell.h / cell.c : 0]. *)
Definition cell_average (cell : Cell) : float :=
  if (0 <? c cell)%nat then (h cell / Num.of_nat (c cell))%float else 0%float.

(** [femaleAvg] and [maleAvg]: each the Qualification and the Refreshment
    average. Reading a cell the table does not hold would throw; the
    table always holds the four of them. *)
Definition averages (avgHours : gmap string (gmap string Cell)) (gender : string)
  : completion (float * float) :=
  match avgHours !! "Qualification" ≫= (.!! gender),
        avgHours !! "Refreshment" ≫= (.!! gender) with
  | Some q, Some r => Normal (cell_average q, cell_average r)
  | _, _ => Throw (TypeError "Cannot read properties of undefined (reading 'c')")
  end.

(** *** Performance *)

Record TrainerData := { hours : float; sessions : nat }.

Definition trainer_of (r : obj) : string :=
  to_string (if truthy (get r "Trainer") then get r "Trainer" else VStr "Unknown").

Definition performance_step (acc : gmap string TrainerData) (r : obj)
  : gmap string TrainerData :=
  let trainer := trainer_of r in
  let acc :=
    match read acc trainer with
    | Absent => <[trainer := {| hours := 0; sessions := 0 |}]> acc
    | _ => acc
    end in
  match read acc trainer with
  | Own data =>
      <[trainer := {| hours := (hours data + hours_of r)%float;
                      sessions := (sessions data + 1)%nat |}]> acc
  | _ => acc
  end.

(** [calculatePerformance], on the records [getTrainingLog] returns. *)
Definition calculatePerformance (records : list obj) : gmap string TrainerData :=
  foldl performance_step ∅ records.

(** The average column of [renderTable]. *)
Definition avgHours (data : TrainerData) : string :=
  if (0 <? sessions data)%nat
  then Num.toFixed2 Number_toString_other
         (hours data / Num.of_nat (sessions data))%float
  else "0.00".

(** ** DataService: import and planned sessions *)

(** [l.map(f)] for an [f] that can throw, the elements counted from [i]. *)
Fixpoint map_from {A B} (f : nat -> A -> completion B) (i : nat) (l : list A)
  : completion (list B) :=
  match l with
  | [] => Normal []
  | x :: l' =>
      match f i x with
      | Normal y =>
          match map_from f (S i) l' with
          | Normal ys => Normal (y :: ys)
          | Throw e => Throw e
          end
      | Throw e => Throw e
      end
  end.

(** The callback of [importData]; [stamp] is what [Date.now()] and
    [Math.random()] return while the record is mapped. *)
Definition import_record (ds : DataService) (stamp : float * float) (record : obj)
  : completion obj :=
  let record := set record "Trainer" (VStr (currentUser ds)) in
  let record :=
    if negb (truthy (get record "Id")) then
      set record "Id"
        (VStr (to_string (VNum stamp.1) +:+ to_string (VNum stamp.2)))
    else record in
  _enrichRecord ds record.

(** [importData]; [stamps i] serves the record at index [i]. *)
Definition importData (stamps : nat -> float * float) (newData : list obj) : M unit :=
  ds ← this;
  data ← lift (map_from (fun i => import_record ds (stamps i)) 0 newData);
  set_trainingData data;;
  _saveToLocalStorage.

Definition with_plannedSessions (w : World) (plans : list obj) : World :=
  {| service := {| orgaData := orgaData (service w);
                   trainingData := trainingData (service w);
                   plannedSessions := plans;
                   currentUser := currentUser (service w) |};
     localStorage := localStorage w;
     console := console w |}.

(** [this.plannedSessions = plans]. *)
Definition set_plannedSessions (plans : list obj) : M unit :=
  fun w => (Normal tt, with_plannedSessions w plans).

(** The month name [addPlan] and [updatePlan] derive; [replace] on a
    planned date that is not a string throws. *)
Definition plan_month (plan : obj) : completion string :=
  match get plan "plannedDate" with
  | VStr s => Normal (toLocaleString_month (Date_parse (Str.replace_dashes s)))
  | _ => Throw (TypeError "plan.plannedDate.replace is not a function")
  end.

(** [addPlan]; [now] is what [Date.now()] returns in the call. *)
Definition addPlan (now : float) (plan : obj) : M unit :=
  let plan := set plan "Id" (VStr (to_string (VNum now))) in
  month ← lift (plan_month plan);
  let plan := set plan "Month" (VStr month) in
  ds ← this;
  set_plannedSessions (plannedSessions ds ++ [plan]);;
  _saveToLocalStorage.

Definition updatePlan (updatedPlan : obj) : M unit :=
  ds ← this;
  match findIndex (fun p => strict_eq (get p "Id") (get updatedPlan "Id"))
                  (plannedSessions ds) with
  | Some index =>
      month ← lift (plan_month updatedPlan);
      let updatedPlan := set updatedPlan "Month" (VStr month) in
      set_plannedSessions (<[index := updatedPlan]> (plannedSessions ds));;
      _saveToLocalStorage
  | None => mret tt
  end.

Definition deletePlan (id : value) : M unit :=
  ds ← this;
  set_plannedSessions
    (List.filter (fun p => negb (strict_eq (get p "Id") id)) (plannedSessions ds));;
  _saveToLocalStorage.

Definition getPlanById (ds : DataService) (id : value) : option obj :=
  List.find (fun p => strict_eq (get p "Id") id) (plannedSessions ds).

(** ** Validators *)

(** [typeof value === 'string' && value.trim() !== '']. *)
Definition isNotEmpty (v : value) : bool :=
  match v with
  | VStr s => negb (String.eqb (Str.trim s) "")
  | _ => false
  end.

Definition isPositiveNumber (v : value) : bool :=
  let num := parseFloat v in
  negb (PrimFloat.is_nan num) && PrimFloat.is_finite num && (0 <? num)%float.

Definition validateTrainingRecord (record : obj) : list string :=
  (if negb (truthy (get record "Training Date"))
   then ["Training Date is required."] else []) ++
  (if negb (truthy (get record "Trainee's ID Number"))
   then ["Trainee's ID Number is required."] else []) ++
  (if negb (truthy (get record "Training Type"))
   then ["Training Type is required."] else []) ++
  (if negb (isPositiveNumber (get record "Number of Training Hours"))
   then ["Number of Training Hours must be a positive number."] else []) ++
  (if is_type record "Training Type" "Refreshment" &&
      negb (truthy (get record "Refreshment Type"))
   then ["Refreshment Type is required for Refreshment training."] else []).

(** ** Analysis: hours by training type, sessions by gender *)

Record TypeBar := { Qualification : float; Refreshment : float; type_label : string }.

(** The [reduce] of [renderWeeklyHoursByTypeChart] ([bucket] is [Week])
    and of [renderMonthlyHoursByTypeChart] ([bucket] is [Month]). *)
Definition hoursByType_step (bucket : string) (acc : gmap string TypeBar)
    (r : obj) : gmap string TypeBar :=
  let key := to_string (get r bucket) +:+ "-" +:+ to_string (get r "Sector") in
  let acc :=
    match read acc key with
    | Absent =>
        <[key := {| Qualification := 0; Refreshment := 0; type_label := key |}]> acc
    | _ => acc
    end in
  match read acc key with
  | Own bar =>
      if is_type r "Training Type" "Qualification" then
        <[key := {| Qualification := (Qualification bar + hours_of r)%float;
                    Refreshment := Refreshment bar;
                    type_label := type_label bar |}]> acc
      else if is_type r "Training Type" "Refreshment" then
        <[key := {| Qualification := Qualification bar;
                    Refreshment := (Refreshment bar + hours_of r)%float;
                    type_label := type_label bar |}]> acc
      else acc
  | _ => acc
  end.

Definition weeklyHoursByType (records : list obj) : gmap string TypeBar :=
  foldl (hoursByType_step "Week") ∅ records.

Definition monthlyHoursByType (records : list obj) : gmap string TypeBar :=
  foldl (hoursByType_step "Month") ∅ records.

(** The [reduce] of [renderSessionsByGenderChart]: [acc[r.Gender]] is only
    read and written under the keys "Male" and "Female". *)
Definition sessionsByGender_step (acc : gmap string nat) (r : obj) : gmap string nat :=
  if is_type r "Gender" "Male" || is_type r "Gender" "Female" then
    let gender := to_string (get r "Gender") in
    <[gender := (default 0%nat (acc !! gender) + 1)%nat]> acc
  else acc.

Definition sessionsByGender (records : list obj) : gmap string nat :=
  foldl sessionsByGender_step ∅ records.

(** ** Dashboard and yearly report: the figures *)

(** [new Set(l)]. *)
Definition Set_of (l : list value) : list value := foldl Set_add [] l.

Record KPIs := {
  kpi_total_hours : string;
  kpi_total_sessions : nat;
  kpi_unique_trainees : nat;
  kpi_avg_hours : string;
}.

(** [Dashboard.renderKPIs], on the records [getTrainingLog] returns. *)
Definition renderKPIs (records : list obj) : KPIs :=
  let totalHours :=
    foldl (fun sum r => (sum + hours_of r)%float) 0%float records in
  let uniqueTrainees :=
    Set_size (Set_of ((fun r => get r "Trainee's ID Number") <$> records)) in
  {| kpi_total_hours := Num.toFixed2 Number_toString_other totalHours;
     kpi_total_sessions := length records;
     kpi_unique_trainees := uniqueTrainees;
     kpi_avg_hours :=
       if (0 <? uniqueTrainees)%nat
       then Num.toFixed2 Number_toString_other
              (totalHours / Num.of_nat uniqueTrainees)%float
       else "0" |}.

(** The operator counts of [YearlyReport.renderKPIs]: all trainees, the
    qualified and the refreshed ones. *)
Definition yearly_operator_counts (yearlyRecords : list obj) : nat * nat * nat :=
  let ids (l : list obj) := (fun r => get r "Trainee's ID Number") <$> l in
  (Set_size (Set_of (ids yearlyRecords)),
   Set_size (Set_of (ids (List.filter
      (fun r => is_type r "Training Type" "Qualification") yearlyRecords))),
   Set_size (Set_of (ids (List.filter
      (fun r => is_type r "Training Type" "Refreshment") yearlyRecords)))).

(** The "Realised" columns of [renderTables]: per fiscal month, and the
    total row. Reading a month the table does not hold would throw. *)
Definition qualifRealised_rows (monthlyData : gmap string MonthData)
  : completion (list (string * nat)) :=
  map_from (fun _ m =>
              match monthlyData !! m with
              | Some data => Normal (m, qualifRealised data)
              | None =>
                  Throw (TypeError "Cannot read properties of undefined")
              end) 0 FISCAL_MONTHS.

Definition qualifRealised_total (yearlyRecords : list obj) : nat :=
  length (List.filter (fun r => is_type r "Training Type" "Qualification")
                      yearlyRecords).

(** The filter of [renderReportContent]: the records of the selected
    fiscal year. [replace] on a date that is not a string throws. *)
Fixpoint yearlyRecords_of (selectedFiscalYear : string) (log : list obj)
  : completion (list obj) :=
  match log with
  | [] => Normal []
  | r :: log' =>
      match get r "Training Date" with
      | VStr s =>
          let keep :=
            String.eqb
              (getFiscalYear (DateObj (Date_parse (Str.replace_dashes s))))
              selectedFiscalYear in
          rest ← yearlyRecords_of selectedFiscalYear log';
          mret (if keep then r :: rest else rest)
      | _ => Throw (TypeError "r['Training Date'].replace is not a function")
      end
  end.

End Program.

(** * Notions the properties are stated with *)

Section Notions.
Context {P : Platform}.

(** The fields enrichment writes. *)
Definition derived_fields : list string :=
  [ "Full Name"; "Gender"; "Project"; "Cost Center"; "Month"; "Week" ].

(** What the roster lookup gives for a field of the trainee. *)
Definition from_roster (ds : DataService) (record : obj) (field : string) : value :=
  match getEmployeeById ds (get record "Trainee's ID Number") with
  | Employee emp => get emp field
  | Null | Undefined => VStr "Unknown"
  end.

(** An employee of the roster stands for the identifier [id] when the two,
    as trimmed strings, are equal. *)
Definition stands_for (emp : obj) (id : value) : Prop :=
  Str.trim (to_string (get emp "Matricule")) = Str.trim (to_string id).

(** The Qualification rows of a month. *)
Definition qualified_in (month : string) (r : obj) : bool :=
  String.eqb (to_string (get r "Month")) month &&
  is_type r "Training Type" "Qualification".

(** The rows of the trainee with identifier [t]. *)
Definition trainee_is (t : string) (r : obj) : bool :=
  strict_eq (get r "Trainee's ID Number") (VStr t).

(** A planned session the loop over the plans can read: its date is a
    string and its trainees are an array. *)
Definition plan_ok (p : obj) : Prop :=
  (exists s, get p "plannedDate" = VStr s) /\
  (exists l, get p "trainees" = VArr l).

(** A record whose month is no member of [Object.prototype]. *)
Definition month_is_plain (r : obj) : Prop :=
  to_string (get r "Month") ∉ Object_prototype_names.

(** What the properties read of a month of the table: the set of qualified
    operators and the count of Qualification sessions. *)
Definition qual_view (monthlyData : gmap string MonthData) (month : string)
  : option (list value * nat) :=
  (fun b => (operatorsQual b, qualifRealised b)) <$> monthlyData !! month.

(** What a Qualification row does to them. *)
Definition qual_bump (r : obj) (v : list value * nat) : list value * nat :=
  (Set_add v.1 (get r "Trainee's ID Number"), S v.2).

(** How many times a set holds the identifier [t]. *)
Definition occurrences (t : string) (s : list value) : nat :=
  length (List.filter (fun e => same_value_zero e (VStr t)) s).

(** The key under which a record is counted. *)
Definition bucket_key (bucket : string) (r : obj) : string :=
  to_string (get r bucket) +:+ "-" +:+ to_string (get r "Sector").

(** Whether a string holds a dash, as every key does. *)
Fixpoint has_dash (s : string) : bool :=
  match s with
  | EmptyString => false
  | String ch s' => Ascii.eqb ch "-" || has_dash s'
  end.

(** The hours of a list of sessions, summed in the order of the list. *)
Definition sum_hours (l : list obj) : float :=
  foldl (fun total r => (total + hours_of r)%float) 0%float l.

(** The average as the specification words it: the sum of the hours over
    the count of the sessions, and zero over no session. *)
Definition mean_hours (l : list obj) : float :=
  match l with
  | [] => 0%float
  | _ => (sum_hours l / Num.of_nat (length l))%float
  end.

(** The sessions counted for a trainer. *)
Definition of_trainer (trainer : string) (r : obj) : bool :=
  String.eqb (trainer_of r) trainer.

(** The entry a trainer's first session opens. *)
Definition no_sessions : TrainerData := {| hours := 0; sessions := 0 |}.

(** The sessions counted in the cell of a training type and a gender. *)
Definition in_cell (type gender : string) (r : obj) : bool :=
  String.eqb (to_string (get r "Training Type")) type &&
  String.eqb (to_string (get r "Gender")) gender.

(** The cell of a training type and a gender, when the table holds it. *)
Definition cell_view (avgHours : gmap string (gmap string Cell))
    (type gender : string) : option Cell :=
  avgHours !! type ≫= (.!! gender).

(** What a session does to its cell. *)
Definition cell_bump (r : obj) (cell : Cell) : Cell :=
  {| h := (h cell + hours_of r)%float; c := S (c cell) |}.

(** A record whose training type is no member of [Object.prototype]. *)
Definition type_is_plain (r : obj) : Prop :=
  to_string (get r "Training Type") ∉ Object_prototype_names.

(** Storage holds the text of both collections of the service. *)
Definition persisted (w : World) : Prop :=
  localStorage w !! TRAINING_DATA =
    Some (JSON_stringify (trainingData (service w))) /\
  localStorage w !! PLANNED_SESSIONS =
    Some (JSON_stringify (plannedSessions (service w))).

(** A record that enrichment leaves as it is: its derived fields are those
    the roster and its date give. *)
Definition is_enriched (ds : DataService) (r : obj) : Prop :=
  _enrichRecord ds r = Normal r.

(** The record [addRecord] enriches: the payload with its identifier and
    its trainer set. *)
Definition stamped (ds : DataService) (now random : float) (record : obj) : obj :=
  let record :=
    set record "Id" (VStr (to_string (VNum now) +:+ to_string (VNum random))) in
  set record "Trainer"
    (if truthy (get record "Trainer") then get record "Trainer"
     else VStr (currentUser ds)).

(** A record that has a training date to call [replace] on. *)
Definition dated (r : obj) : Prop := exists s, get r "Training Date" = VStr s.

(** What [importData] makes of a record of the file: the acting user is
    its trainer, its identifier is kept when it has one, its derived fields
    are those of enrichment and its other fields are untouched. *)
Definition imported (ds : DataService) (r e : obj) : Prop :=
  is_enriched ds e /\
  get e "Trainer" = VStr (currentUser ds) /\
  (truthy (get r "Id") = true -> get e "Id" = get r "Id") /\
  (forall k, k ≠ "Trainer" -> k ≠ "Id" -> k ∉ derived_fields -> e !! k = r !! k).

(** A string that does not begin with whitespace. *)
Definition starts_clean (s : string) : Prop :=
  match s with
  | String c _ => Str.is_white c = false
  | EmptyString => True
  end.

(** The records counted under a key of a chart by bucket and sector. *)
Definition with_key (bucket key : string) (r : obj) : bool :=
  String.eqb (bucket_key bucket r) key.

(** What a record does to the bar of the gender chart it falls in. *)
Definition gender_bump (r : obj) (bar : GenderBar) : GenderBar :=
  if is_type r "Gender" "Male" then
    {| Male := (Male bar + hours_of r)%float; Female := Female bar;
       label := label bar |}
  else if is_type r "Gender" "Female" then
    {| Male := Male bar; Female := (Female bar + hours_of r)%float;
       label := label bar |}
  else bar.

(** What a record does to the bar of the type chart it falls in. *)
Definition type_bump (r : obj) (bar : TypeBar) : TypeBar :=
  if is_type r "Training Type" "Qualification" then
    {| Qualification := (Qualification bar + hours_of r)%float;
       Refreshment := Refreshment bar; type_label := type_label bar |}
  else if is_type r "Training Type" "Refreshment" then
    {| Qualification := Qualification bar;
       Refreshment := (Refreshment bar + hours_of r)%float;
       type_label := type_label bar |}
  else bar.

(** The hours of the records of a list that have the value [v] in
    [field], summed in the order of the list. *)
Definition hours_where (field v : string) (l : list obj) : float :=
  sum_hours (List.filter (fun r => is_type r field v) l).

(** The sessions a table of trainers counts, over all its entries. *)
Definition total_sessions (table : gmap string TrainerData) : nat :=
  map_fold (fun _ data n => (sessions data + n)%nat) 0%nat table.

(** A table none of whose entries bears the name of a member of
    [Object.prototype]. *)
Definition plain_table {A} (table : gmap string A) : Prop :=
  forall k, inherited k = true -> table !! k = None.

(** A Qualification record whose month is none of the fiscal months. *)
Definition off_calendar (r : obj) : bool :=
  is_type r "Training Type" "Qualification" &&
  negb (bool_decide (to_string (get r "Month") ∈ FISCAL_MONTHS)).

(** The records [calculateMonthlyData] does something with: those of one of
    the two training types whose month the table can be read at. *)
Definition reaches_table (r : obj) : bool :=
  (is_type r "Training Type" "Qualification" ||
   is_type r "Training Type" "Refreshment") &&
  (bool_decide (to_string (get r "Month") ∈ FISCAL_MONTHS) ||
   inherited (to_string (get r "Month"))).

(** A record whose trainee identifier is a string, and that string. *)
Definition has_string_id (r : obj) : Prop :=
  exists t, get r "Trainee's ID Number" = VStr t.

Definition id_name (r : obj) : string :=
  to_string (get r "Trainee's ID Number").

(** A record dated from July of the year [Y] to June of the year after. *)
Definition in_fiscal_year (Y : Z) (r : obj) : bool :=
  match get r "Training Date" with
  | VStr s =>
      match Date_parse (Str.replace_dashes s) with
      | LocalDate y m _ => (y =? Y) && (6 <=? m) || (y =? Y + 1) && (m <=? 5)
      | InvalidDate => false
      end
  | _ => false
  end.

(** A string of whitespace only. *)
Fixpoint blank (s : string) : bool :=
  match s with
  | String c s' => Str.is_white c && blank s'
  | EmptyString => true
  end.

(** The sessions of a trainer, as the table of trainers is read: a record
    counts for the trainer it names, and a record that names none (no
    trainer, or an empty one) counts for "Unknown". *)
Definition led_by (trainer : string) (r : obj) : bool :=
  match r !! "Trainer" with
  | Some v =>
      if truthy v then String.eqb (to_string v) trainer
      else String.eqb "Unknown" trainer
  | None => String.eqb "Unknown" trainer
  end.

End Notions.

(** * A platform to run the program on

    Dates are read as year/month/day, months are named in English, hours
    are read as unsigned decimal integers, and storage is unbounded. With
    the sample data that follow, it instantiates the development at
    concrete inputs. *)

Module Sample.

Fixpoint digits (s : string) (acc : Z) : option Z :=
  match s with
  | EmptyString => Some acc
  | String ch s' =>
      n ← Ascii.is_nat ch; digits s' (10 * acc + Z.of_nat n)
  end.

Definition number (s : string) : option Z :=
  match s with
  | EmptyString => None
  | _ => digits s 0
  end.

Fixpoint split (sep : ascii) (s : string) (cur : string) : list string :=
  match s with
  | EmptyString => [String.rev cur]
  | String ch s' =>
      if Ascii.eqb ch sep then String.rev cur :: split sep s' ""
      else split sep s' (String ch cur)
  end.

Definition parse_ymd (s : string) : Date :=
  match number <$> split "/" s "" with
  | [Some y; Some m; Some d] =>
      if (1 <=? m) && (m <=? 12) && (1 <=? d) && (d <=? days_in_month y (m - 1))
      then LocalDate y (m - 1) d
      else InvalidDate
  | _ => InvalidDate
  end.

Definition english_month (m : Z) : string :=
  default "" (MONTH_ORDER !! Z.to_nat m).

Definition parse_integer (s : string) : float :=
  match number (Str.trim s) with
  | Some z => Num.of_Z z
  | None => PrimFloat.nan
  end.

Definition stringify (l : list obj) : string :=
  "[" +:+ Str.join ","
    ((fun o : obj => "{" +:+ Str.join "," (map_to_list o).*1 +:+ "}") <$> l)
  +:+ "]".

(** A roster of two employees, a service that has logged one session, and
    the world it lives in. *)
Definition roster : list obj :=
  [ {[ "Matricule" := VStr " 1001 "; "Full Name" := VStr "Amal Idrissi";
       "Gender" := VStr "Female"; "PROJET" := VStr "P1";
       "Cost center" := VStr "CC7" ]};
    {[ "Matricule" := VStr "1002"; "Full Name" := VStr "Badr Tazi";
       "Gender" := VStr "Male"; "PROJET" := VStr "P2";
       "Cost center" := VStr "CC9" ]} ].

Definition logged : obj :=
  {[ "Id" := VStr "17000000000000.25"; "Training Date" := VStr "2024-07-08";
     "Trainee's ID Number" := VStr "1002";
     "Training Type" := VStr "Qualification";
     "Number of Training Hours" := VStr "4"; "Sector" := VStr "Assembly";
     "Trainer" := VStr "Alice"; "Full Name" := VStr "Badr Tazi";
     "Gender" := VStr "Male"; "Project" := VStr "P2";
     "Cost Center" := VStr "CC9"; "Month" := VStr "July";
     "Week" := VStr "Week 2" ]}.

Definition dataService : DataService :=
  {| orgaData := roster; trainingData := [logged];
     plannedSessions := []; currentUser := "Alice" |}.

Definition world : World :=
  {| service := dataService; localStorage := ∅; console := [] |}.

(** Payloads of the training form. *)
Definition session (date trainee type hours : string) : obj :=
  {[ "Id" := VStr ""; "Training Date" := VStr date;
     "Trainee's ID Number" := VStr trainee; "Training Type" := VStr type;
     "Process" := VStr "Crimping"; "Refreshment Type" := VStr "";
     "Number of Training Hours" := VStr hours; "Sector" := VStr "Assembly" ]}.

Definition january_31 : obj := session "2024-01-31" "1001" "Qualification" "3".

Definition unknown_trainee : obj := session "2024-03-05" "9999" "Refreshment" "2".

Definition misdated : obj := session "soon" "1001" "Qualification" "3".

Definition undated : obj := delete "Training Date" january_31.

(** An edit of the logged session that names another trainer. *)
Definition edit_by_bob : obj :=
  <["Trainer" := VStr "Bob"]>
    (<["Id" := VStr "17000000000000.25"]>
       (session "2024-07-09" "1002" "Qualification" "6")).

(** An edit of a session the log does not hold. *)
Definition edit_of_stranger : obj :=
  <["Id" := VStr "42"]> (session "2024-07-09" "1002" "Qualification" "6").

(** Enriched records of one July: two qualifications and a refreshment
    of trainee 1002, a qualification of trainee 1001. *)
Definition row (trainee type hours gender trainer : string) : obj :=
  <["Month" := VStr "July"]>
    (<["Week" := VStr "Week 2"]>
       (<["Gender" := VStr gender]>
          (<["Trainer" := VStr trainer]>
             (session "2024-07-08" trainee type hours)))).

Definition july : list obj :=
  [ row "1002" "Qualification" "4" "Male" "Alice";
    row "1001" "Qualification" "3" "Female" "Alice";
    row "1002" "Qualification" "2" "Male" "Carl";
    row "1002" "Refreshment" "1" "Male" "Alice" ].

Definition july_plans : list obj :=
  [ {[ "Id" := VStr "1700000000000"; "plannedDate" := VStr "2024-07-15";
       "trainingType" := VStr "Qualification";
       "trainees" := VArr [VStr "1001"; VStr "1002"] ]} ].

(** A payload of the planning form, a world that holds the plan of July,
    and an edit of that plan. *)
Definition plan_form : obj :=
  {[ "plannedDate" := VStr "2024-08-20"; "trainingType" := VStr "Refreshment";
     "trainees" := VArr [VStr "1001"] ]}.

Definition planning : World :=
  {| service :=
       {| orgaData := roster; trainingData := [logged];
          plannedSessions := july_plans; currentUser := "Alice" |};
     localStorage := ∅; console := [] |}.

Definition plan_edit : obj := <["Id" := VStr "1700000000000"]> plan_form.

Definition platform : Platform :=
  {| Date_parse := parse_ymd;
     month_long := english_month;
     parseFloat_string := parse_integer;
     Number_toString_other := fun _ => "";
     JSON_stringify := stringify;
     setItem_fits := fun _ _ _ => true;
     member_update_throws := fun _ _ => false |}.

(** A platform whose storage is full. *)
Definition full_platform : Platform :=
  {| Date_parse := parse_ymd;
     month_long := english_month;
     parseFloat_string := parse_integer;
     Number_toString_other := fun _ => "";
     JSON_stringify := stringify;
     setItem_fits := fun _ _ _ => false;
     member_update_throws := fun _ _ => false |}.

End Sample.

(** * Properties *)

(** Settles a decidable statement about concrete data by evaluation. *)
Ltac decide_elem := apply (bool_decide_unpack _); vm_compute; exact I.

Section Properties.
Context {P : Platform}.

(** ** The fiscal calendar *)

(** C2. For every date, [getFiscalYear] returns "FY Y" where Y is the
    calendar year when the calendar month is July (month 6, counted from
    zero) or later, and the calendar year minus one otherwise; June 30 2024
    gives "FY 2023" and July 1 2024 gives "FY 2024". *)
Theorem getFiscalYear_label :
  (forall y m d : Z,
     getFiscalYear (DateObj (LocalDate y m d)) =
     "FY " +:+ pretty (if 6 <=? m then y else y - 1)) /\
  getFiscalYear (DateObj (LocalDate 2024 5 30)) = "FY 2023" /\
  getFiscalYear (DateObj (LocalDate 2024 6 1)) = "FY 2024".
Proof.
  split; [|split; reflexivity].
  intros y m d. unfold getFiscalYear; simpl.
  rewrite Z.geb_leb. reflexivity.
Qed.

(** An invalid date, or a value that is no date, has no fiscal year. *)
Lemma getFiscalYear_none v :
  getFiscalYear (DateObj InvalidDate) = "" /\ getFiscalYear (NotDate v) = "".
Proof. split; reflexivity. Qed.

(** ** Week labels *)

(** The quotient [Math.ceil(day / 7)], computed on floats, prints as the
    integer ceiling for every day of a month. *)
Lemma week_number_of_day (d : Z) :
  1 <= d <= 31 ->
  to_string (VNum (Num.Math_ceil (Num.of_Z d / 7)%float)) = pretty ((d + 6) / 7).
Proof.
  intros Hd.
  assert (Hcases : Exists (eq d) (Z.of_nat <$> seq 1 31)).
  { apply Exists_exists. exists d. split; [|reflexivity].
    apply list_elem_of_fmap. exists (Z.to_nat d). split; [lia|].
    apply elem_of_seq. lia. }
  cbn in Hcases.
  repeat (apply Exists_cons in Hcases as [->|Hcases]; [vm_compute; reflexivity|]).
  inversion Hcases.
Qed.

(** ** Records and enrichment *)

Lemma get_set_eq (o : obj) k v : get (set o k v) k = v.
Proof. unfold get, set. by rewrite lookup_insert_eq. Qed.

Lemma get_set_ne (o : obj) k k' v : k ≠ k' -> get (set o k v) k' = get o k'.
Proof. intros. unfold get, set. by rewrite lookup_insert_ne. Qed.

Lemma lookup_set_ne (o : obj) k k' v : k ≠ k' -> set o k v !! k' = o !! k'.
Proof. intros. unfold set. by rewrite lookup_insert_ne. Qed.

(** Enrichment of a record whose training date is a string completes: it
    writes the six derived fields and leaves every other field alone. *)
Lemma _enrichRecord_completes ds (record : obj) s :
  get record "Training Date" = VStr s ->
  exists enriched,
    _enrichRecord ds record = Normal enriched /\
    get enriched "Full Name" = from_roster ds record "Full Name" /\
    get enriched "Gender" = from_roster ds record "Gender" /\
    get enriched "Project" = from_roster ds record "PROJET" /\
    get enriched "Cost Center" = from_roster ds record "Cost center" /\
    get enriched "Month" =
      VStr (toLocaleString_month (Date_parse (Str.replace_dashes s))) /\
    get enriched "Week" =
      VStr ("Week " +:+
            to_string (VNum (Num.Math_ceil
              (getDate (Date_parse (Str.replace_dashes s)) / 7)%float))) /\
    forall k, k ∉ derived_fields -> enriched !! k = record !! k.
Proof.
  intros Hdate. unfold _enrichRecord.
  rewrite !get_set_ne by done. rewrite Hdate.
  eexists; split; [reflexivity|].
  unfold from_roster.
  repeat split;
    try (rewrite ?get_set_eq, ?get_set_ne by done; rewrite ?get_set_eq; reflexivity).
  intros k Hk. unfold derived_fields in Hk.
  rewrite !lookup_set_ne; [reflexivity|..]; intros <-; apply Hk; decide_elem.
Qed.

(** Enrichment throws when the training date is not a string. *)
Lemma _enrichRecord_throws ds (record : obj) :
  (forall s, get record "Training Date" ≠ VStr s) ->
  exists e, _enrichRecord ds record = Throw e.
Proof.
  intros Hdate. unfold _enrichRecord.
  rewrite !get_set_ne by done.
  destruct (get record "Training Date") eqn:E; eauto.
  by destruct (Hdate s).
Qed.

(** C3. For every record whose training date parses to a valid calendar
    day [d] of a month, enrichment labels it "Week N" with N the ceiling of
    [d / 7]: N is one of 1..5, and days 1, 7, 8 and 31 give weeks 1, 1, 2
    and 5. *)
Theorem week_label_of_valid_date ds (record : obj) s y m d :
  get record "Training Date" = VStr s ->
  Date_parse (Str.replace_dashes s) = LocalDate y m d ->
  valid_date (LocalDate y m d) ->
  exists enriched N,
    _enrichRecord ds record = Normal enriched /\
    get enriched "Week" = VStr ("Week " +:+ pretty N) /\
    7 * (N - 1) < d <= 7 * N /\
    1 <= N <= 5 /\
    (d = 1 -> N = 1) /\ (d = 7 -> N = 1) /\ (d = 8 -> N = 2) /\ (d = 31 -> N = 5).
Proof.
  intros Hdate Hparse (_ & _ & Hd).
  assert (days_in_month y m <= 31).
  { unfold days_in_month. repeat case_match; lia. }
  destruct (_enrichRecord_completes ds record s Hdate)
    as (enriched & He & _ & _ & _ & _ & _ & Hweek & _).
  exists enriched, ((d + 6) / 7). split; [exact He|].
  split.
  { rewrite Hweek, Hparse. simpl getDate.
    rewrite week_number_of_day by lia. reflexivity. }
  assert (7 * ((d + 6) / 7) <= d + 6 < 7 * ((d + 6) / 7) + 7).
  { pose proof (Z.mul_div_le (d + 6) 7). pose proof (Z.mul_succ_div_gt (d + 6) 7).
    lia. }
  repeat split; lia.
Qed.

(** C6, on the code. Enrichment has no fallback for a date that does not
    parse: for every record whose training date is a string that does not
    parse to a date, it completes and writes the month "Invalid Date" and
    the week "Week NaN", where the roster fields next to them fall back
    to "Unknown". *)
Theorem _enrichRecord_unparseable_date ds (record : obj) s :
  get record "Training Date" = VStr s ->
  Date_parse (Str.replace_dashes s) = InvalidDate ->
  exists enriched,
    _enrichRecord ds record = Normal enriched /\
    get enriched "Month" = VStr "Invalid Date" /\
    get enriched "Week" = VStr "Week NaN".
Proof.
  intros Hdate Hparse.
  destruct (_enrichRecord_completes ds record s Hdate)
    as (enriched & He & _ & _ & _ & _ & Hmonth & Hweek & _).
  exists enriched. rewrite Hmonth, Hweek, Hparse. auto.
Qed.

(** ** The roster lookup *)

(** An empty identifier ([''], [undefined], [null], 0) is looked up to
    [null]. *)
Lemma getEmployeeById_empty ds id :
  truthy id = false -> getEmployeeById ds id = Null.
Proof. intros H. unfold getEmployeeById. by rewrite H. Qed.

(** The employee the lookup returns is the first of the roster, with a
    Matricule, that stands for the identifier. *)
Lemma getEmployeeById_found ds id emp :
  getEmployeeById ds id = Employee emp ->
  emp ∈ orgaData ds /\ truthy (get emp "Matricule") = true /\ stands_for emp id.
Proof.
  unfold getEmployeeById. destruct (truthy id); simpl; [|discriminate].
  destruct (List.find _ _) as [e|] eqn:Hfind; [|discriminate].
  intros [= <-]. apply find_some in Hfind as [Hin Hp].
  apply andb_prop in Hp as [Ht He].
  repeat split; [by apply list_elem_of_In | exact Ht |].
  by apply String.eqb_eq.
Qed.

(** When no employee of the roster stands for a non-empty identifier, the
    lookup returns what [Array.prototype.find] returns: [undefined]. *)
Lemma getEmployeeById_miss ds id :
  truthy id = true ->
  Forall (fun emp => ¬ stands_for emp id) (orgaData ds) ->
  getEmployeeById ds id = Undefined.
Proof.
  intros Ht Hall. unfold getEmployeeById. rewrite Ht. simpl.
  destruct (List.find _ _) as [e|] eqn:Hfind; [|reflexivity].
  apply find_some in Hfind as [Hin Hp].
  apply andb_prop in Hp as [_ He]. apply String.eqb_eq in He.
  rewrite Forall_forall in Hall. destruct (Hall e); [|exact He].
  by apply list_elem_of_In.
Qed.

(** A trainee the roster does not know is enriched from no employee. *)
Lemma from_roster_unknown ds (record : obj) field :
  Forall (fun emp => ¬ stands_for emp (get record "Trainee's ID Number"))
         (orgaData ds) ->
  from_roster ds record field = VStr "Unknown".
Proof.
  intros Hall. unfold from_roster.
  destruct (truthy (get record "Trainee's ID Number")) eqn:Ht.
  - by rewrite getEmployeeById_miss.
  - by rewrite getEmployeeById_empty.
Qed.

(** C9, on the code. Looking up the identifier "999" in a roster that
    holds "1001" and "1002" returns [undefined], not [null]. *)
Theorem getEmployeeById_miss_is_undefined :
  getEmployeeById Sample.dataService (VStr "999") = Undefined /\
  getEmployeeById Sample.dataService (VStr "999") ≠ Null.
Proof. split; [reflexivity | discriminate]. Qed.

(** ** The store *)

(** Saving completes and leaves the service as it is. *)
Lemma _saveToLocalStorage_completes w :
  exists w', _saveToLocalStorage w = (Normal tt, w') /\ service w' = service w.
Proof.
  unfold _saveToLocalStorage, mbind, M_bind, this, StorageService_save. simpl.
  repeat case_match; simplify_eq/=; eauto.
Qed.

(** When storage takes both writes, it then holds the two collections. *)
Lemma _saveToLocalStorage_persists w :
  (forall store key text, setItem_fits store key text = true) ->
  exists w',
    _saveToLocalStorage w = (Normal tt, w') /\
    localStorage w' !! TRAINING_DATA =
      Some (JSON_stringify (trainingData (service w))) /\
    localStorage w' !! PLANNED_SESSIONS =
      Some (JSON_stringify (plannedSessions (service w))).
Proof.
  intros Hfits.
  unfold _saveToLocalStorage, mbind, M_bind, this, StorageService_save. simpl.
  rewrite !Hfits. eexists; split; [reflexivity|]. simpl.
  split; [by rewrite lookup_insert_ne, lookup_insert_eq | by rewrite lookup_insert_eq].
Qed.

Lemma find_findIndex {A} (p : A -> bool) (l : list A) x :
  List.find p l = Some x ->
  exists i, findIndex p l = Some i /\ l !! i = Some x.
Proof.
  induction l as [|a l IH]; simpl; [discriminate|].
  destruct (p a) eqn:Hp.
  - intros [= ->]. by exists 0%nat.
  - intros Hf. destruct (IH Hf) as (i & Hi & Hl).
    exists (S i). by rewrite Hi.
Qed.

Lemma findIndex_none {A} (p : A -> bool) (l : list A) :
  Forall (fun a => p a = false) l -> findIndex p l = None.
Proof.
  induction 1 as [|a l Ha _ IH]; simpl; [reflexivity|]. by rewrite Ha, IH.
Qed.

Lemma find_insert_findIndex {A} (p : A -> bool) (l : list A) i x :
  findIndex p l = Some i -> p x = true ->
  List.find p (<[i := x]> l) = Some x.
Proof.
  revert i. induction l as [|a l IH]; intros i; simpl; [discriminate|].
  destruct (p a) eqn:Hp.
  - intros [= <-] Hx. simpl. by rewrite Hx.
  - destruct (findIndex p l) as [j|] eqn:Hj; [|discriminate].
    simpl. intros [= <-] Hx. simpl. rewrite Hp. by apply IH.
Qed.

(** [y === y] holds for whatever some [x] is [===] to. *)
Lemma SFeqb_refl_r x y : SFeqb x y = true -> SFeqb y y = true.
Proof.
  unfold SFeqb.
  destruct x as [? | ? | | ? ? ?], y as [? | [] | | [] my ey]; simpl; try done;
    intros _; rewrite Z.compare_refl, ?Pos.compare_cont_refl, ?Pos.compare_refl;
    done.
Qed.

Lemma strict_eq_refl_r a b : strict_eq a b = true -> strict_eq b b = true.
Proof.
  destruct a as [| |x|x|x|x], b as [| |y|y|y|y]; simpl; try done.
  - intros _. by destruct y.
  - rewrite !FloatAxioms.eqb_spec. apply SFeqb_refl_r.
  - intros _. apply String.eqb_refl.
Qed.

(** C5. For every record with a training date and a trainee identifier
    that no employee of the roster stands for, [addRecord] completes and puts
    at the head of the log the record enriched with full name, gender,
    project and cost center "Unknown". *)
Theorem addRecord_unknown_trainee now random (record : obj) s w :
  get record "Training Date" = VStr s ->
  Forall (fun emp => ¬ stands_for emp (get record "Trainee's ID Number"))
         (orgaData (service w)) ->
  exists enriched w',
    addRecord now random record w = (Normal tt, w') /\
    trainingData (service w') = enriched :: trainingData (service w) /\
    get enriched "Full Name" = VStr "Unknown" /\
    get enriched "Gender" = VStr "Unknown" /\
    get enriched "Project" = VStr "Unknown" /\
    get enriched "Cost Center" = VStr "Unknown".
Proof.
  intros Hdate Hroster.
  unfold addRecord, mbind, M_bind, this, lift, set_trainingData. simpl.
  match goal with |- context [_enrichRecord _ ?r] => set (record' := r) end.
  assert (Hdate' : get record' "Training Date" = VStr s).
  { subst record'. by rewrite !get_set_ne. }
  assert (Hid : get record' "Trainee's ID Number" = get record "Trainee's ID Number").
  { subst record'. by rewrite !get_set_ne. }
  destruct (_enrichRecord_completes (service w) record' s Hdate')
    as (enriched & He & Hname & Hgender & Hproject & Hcost & _).
  rewrite He.
  match goal with |- context [_saveToLocalStorage ?w1] =>
    destruct (_saveToLocalStorage_completes w1) as (w' & Hsave & Hservice) end.
  exists enriched, w'. rewrite Hsave, Hservice. simpl.
  rewrite Hname, Hgender, Hproject, Hcost.
  rewrite !from_roster_unknown by (by rewrite Hid). done.
Qed.

(** C4. For every store that holds under the payload's identifier a record
    [original], updating with a payload that has a training date completes,
    and the record then held under that identifier has the trainer of
    [original], whatever trainer the payload names, and the payload's value
    in every field but the trainer and the derived ones. *)
Theorem updateRecord_preserves_trainer (updatedRecord original : obj) s w :
  getRecordById (service w) (get updatedRecord "Id") = Some original ->
  get updatedRecord "Training Date" = VStr s ->
  exists stored w',
    updateRecord updatedRecord w = (Normal tt, w') /\
    getRecordById (service w') (get updatedRecord "Id") = Some stored /\
    get stored "Trainer" = get original "Trainer" /\
    (forall k, k ≠ "Trainer" -> k ∉ derived_fields ->
               stored !! k = updatedRecord !! k) /\
    length (trainingData (service w')) = length (trainingData (service w)).
Proof.
  intros Hfound Hdate. unfold getRecordById in Hfound.
  pose proof Hfound as Hmatch. apply find_some in Hmatch as [_ Hmatch].
  apply find_findIndex in Hfound as (index & Hindex & Hlookup).
  unfold updateRecord, mbind, M_bind, this, lift, set_trainingData. simpl.
  rewrite Hindex, Hlookup.
  set (payload := set updatedRecord "Trainer" (get original "Trainer")).
  assert (Hdate' : get payload "Training Date" = VStr s).
  { subst payload. by rewrite get_set_ne. }
  destruct (_enrichRecord_completes (service w) payload s Hdate')
    as (stored & He & _ & _ & _ & _ & _ & _ & Hrest).
  rewrite He.
  match goal with |- context [_saveToLocalStorage ?w1] =>
    destruct (_saveToLocalStorage_completes w1) as (w' & Hsave & Hservice) end.
  exists stored, w'. rewrite Hsave. unfold getRecordById. rewrite Hservice. simpl.
  assert (Hfield : forall k, k ∉ derived_fields -> get stored k = get payload k).
  { intros k Hk. unfold get. by rewrite Hrest. }
  repeat split.
  - apply find_insert_findIndex; [exact Hindex|].
    rewrite Hfield by decide_elem. subst payload. rewrite get_set_ne by done.
    by apply strict_eq_refl_r in Hmatch.
  - rewrite Hfield by decide_elem. subst payload. by rewrite get_set_eq.
  - intros k Hk Hderived. rewrite Hrest by done. subst payload.
    by rewrite lookup_set_ne.
  - by rewrite length_insert.
Qed.

(** C10. For every world and every payload whose identifier no stored
    record has, [updateRecord] completes and leaves the world as it was:
    the service with its two collections, the storage and the console. *)
Theorem updateRecord_unknown_id (updatedRecord : obj) w :
  Forall (fun record => strict_eq (get record "Id") (get updatedRecord "Id") = false)
         (trainingData (service w)) ->
  updateRecord updatedRecord w = (Normal tt, w).
Proof.
  intros Hnone.
  unfold updateRecord, mbind, M_bind, this. simpl.
  by rewrite findIndex_none.
Qed.

(** ** The yearly report: operators and sessions per fiscal month *)

Lemma plan_step_view monthlyData p monthlyData' month :
  plan_step monthlyData p = Normal monthlyData' ->
  qual_view monthlyData' month = qual_view monthlyData month.
Proof.
  unfold plan_step.
  destruct (get p "plannedDate") as [| | | |s|]; try discriminate.
  set (key := toLocaleString_month _).
  unfold read. destruct (monthlyData !! key) as [b|] eqn:Hb.
  - assert (Hview : forall b',
      operatorsQual b' = operatorsQual b -> qualifRealised b' = qualifRealised b ->
      qual_view (<[key := b']> monthlyData) month = qual_view monthlyData month).
    { intros b' Ho Hq. unfold qual_view.
      destruct (decide (key = month)) as [<-|Hne].
      - rewrite lookup_insert_eq, Hb. simpl. by rewrite Ho, Hq.
      - by rewrite lookup_insert_ne. }
    destruct (is_type p "trainingType" "Qualification");
      [|destruct (is_type p "trainingType" "Refreshment")];
      try destruct (length_of (get p "trainees")); simpl;
      intros [= <-]; first [reflexivity | by apply Hview].
  - destruct (inherited key);
      [destruct (is_type p "trainingType" "Qualification"),
                (is_type p "trainingType" "Refreshment")|];
      try destruct (length_of (get p "trainees")); simpl;
      by intros [= <-].
Qed.

Lemma plans_view plans monthlyData monthlyData' month :
  forEach plan_step monthlyData plans = Normal monthlyData' ->
  qual_view monthlyData' month = qual_view monthlyData month.
Proof.
  revert monthlyData. induction plans as [|p plans IH]; intros monthlyData; simpl.
  - by intros [= <-].
  - destruct (plan_step monthlyData p) as [step|] eqn:Hstep; [|discriminate].
    intros Hrest. rewrite (IH _ Hrest). by eapply plan_step_view.
Qed.

Lemma record_step_view monthlyData r monthlyData' month :
  record_step monthlyData r = Normal monthlyData' ->
  qual_view monthlyData' month =
  (if qualified_in month r then qual_bump r else id) <$> qual_view monthlyData month.
Proof.
  unfold record_step, qualified_in, qual_view, read.
  set (key := to_string (get r "Month")).
  assert (Hid : forall o : option (list value * nat), o = id <$> o) by (by intros []).
  destruct (monthlyData !! key) as [b|] eqn:Hb.
  - destruct (is_type r "Training Type" "Qualification") eqn:Hq;
      [|destruct (is_type r "Training Type" "Refreshment")];
      simpl; intros [= <-];
      destruct (String.eqb_spec key month) as [<-|Hne]; simpl;
      rewrite ?lookup_insert_eq, ?lookup_insert_ne, ?Hb by done; simpl;
      first [reflexivity | apply Hid].
  - intros Heq. assert (monthlyData' = monthlyData) as ->.
    { destruct (inherited key);
        [destruct (is_type r "Training Type" "Qualification"),
                  (is_type r "Training Type" "Refreshment")|];
        simpl in Heq; first [discriminate Heq | by injection Heq]. }
    destruct (String.eqb_spec key month) as [<-|Hne]; simpl; [|apply Hid].
    rewrite Hb. by destruct (is_type _ _ _).
Qed.

Lemma records_view records monthlyData monthlyData' month :
  forEach record_step monthlyData records = Normal monthlyData' ->
  qual_view monthlyData' month =
  (fun v => foldl (fun v r => qual_bump r v) v
              (List.filter (qualified_in month) records))
  <$> qual_view monthlyData month.
Proof.
  revert monthlyData. induction records as [|r records IH]; intros monthlyData; simpl.
  - intros [= <-]. by destruct (qual_view _ _).
  - destruct (record_step monthlyData r) as [step|] eqn:Hstep; [|discriminate].
    intros Hrest. rewrite (IH _ Hrest), (record_step_view _ _ _ month Hstep).
    destruct (qualified_in month r), (qual_view monthlyData month); reflexivity.
Qed.

(** The aggregation completes on plans it can read and on records whose
    month is no member of [Object.prototype]. *)
Lemma calculateMonthlyData_completes yearlyRecords yearlyPlannedSessions :
  Forall plan_ok yearlyPlannedSessions ->
  Forall month_is_plain yearlyRecords ->
  exists monthlyData,
    calculateMonthlyData yearlyRecords yearlyPlannedSessions = Normal monthlyData.
Proof.
  intros Hplans Hrecords. unfold calculateMonthlyData.
  assert (Hp : forall md, exists md',
             forEach plan_step md yearlyPlannedSessions = Normal md').
  { induction Hplans as [|p plans [[s Hs] [l Hl]] _ IH]; intros md; simpl; [eauto|].
    assert (exists step, plan_step md p = Normal step) as [step ->]; [|apply IH].
    unfold plan_step. rewrite Hs, Hl.
    destruct (read md _); repeat (destruct (is_type _ _ _); simpl); eauto. }
  assert (Hr : forall md, exists md', forEach record_step md yearlyRecords = Normal md').
  { induction Hrecords as [|r records Hplain _ IH]; intros md; simpl; [eauto|].
    assert (exists step, record_step md r = Normal step) as [step ->]; [|apply IH].
    unfold record_step, read.
    apply (bool_decide_eq_false_2 _) in Hplain.
    fold (inherited (to_string (get r "Month"))) in Hplain. rewrite Hplain.
    destruct (md !! _); repeat (destruct (is_type _ _ _); simpl); eauto. }
  destruct (Hp initial_monthlyData) as [md0 ->]. simpl. apply Hr.
Qed.

Lemma foldl_qual_bump rows s n :
  foldl (fun v r => qual_bump r v) (s, n) rows =
  (foldl Set_add s ((fun r => get r "Trainee's ID Number") <$> rows),
   (n + length rows)%nat).
Proof.
  revert s n. induction rows as [|r rows IH]; intros s n; simpl.
  - by rewrite Nat.add_0_r.
  - unfold qual_bump at 2. simpl. rewrite IH. f_equal. lia.
Qed.

Lemma initial_monthlyData_view month :
  month ∈ FISCAL_MONTHS -> qual_view initial_monthlyData month = Some ([], 0%nat).
Proof.
  unfold FISCAL_MONTHS. rewrite !elem_of_cons, elem_of_nil.
  intros H. repeat destruct H as [->|H]; [by vm_compute..|done].
Qed.

(** *** Sets of identifiers *)

Lemma same_value_zero_string e t :
  same_value_zero e (VStr t) = true <-> e = VStr t.
Proof.
  destruct e; simpl; try (split; [discriminate|done]).
  rewrite String.eqb_eq. split; congruence.
Qed.

Lemma Set_has_occurrences t s :
  Set_has s (VStr t) = negb (occurrences t s =? 0)%nat.
Proof.
  unfold Set_has, occurrences. induction s as [|e s IH]; simpl; [done|].
  destruct (same_value_zero e (VStr t)); simpl; [done|exact IH].
Qed.

Lemma Set_add_occurrences t s v :
  (occurrences t s <= 1)%nat ->
  occurrences t (Set_add s v) =
  if same_value_zero v (VStr t) then 1%nat else occurrences t s.
Proof.
  intros Hle. unfold Set_add.
  destruct (same_value_zero v (VStr t)) eqn:Hv.
  - apply same_value_zero_string in Hv as ->.
    rewrite Set_has_occurrences.
    destruct (Nat.eqb_spec (occurrences t s) 0) as [Hz|Hnz]; simpl; [|lia].
    unfold occurrences in *. rewrite List.filter_app, length_app, Hz. simpl.
    by rewrite String.eqb_refl.
  - destruct (Set_has s v); [done|].
    unfold occurrences. rewrite List.filter_app, length_app. simpl.
    rewrite Hv. simpl. lia.
Qed.

Lemma foldl_Set_add_occurrences t ids s :
  (occurrences t s <= 1)%nat ->
  occurrences t (foldl Set_add s ids) =
  if existsb (fun v => same_value_zero v (VStr t)) ids then 1%nat
  else occurrences t s.
Proof.
  revert s. induction ids as [|v ids IH]; intros s Hle; simpl; [done|].
  pose proof (Set_add_occurrences t s v Hle) as Hadd.
  rewrite IH by (rewrite Hadd; case_match; lia).
  rewrite Hadd. destruct (same_value_zero v (VStr t)); simpl; [|done].
  by case_match.
Qed.

Lemma foldl_Set_add_single t ids :
  Forall (eq (VStr t)) ids -> ids ≠ [] -> foldl Set_add [] ids = [VStr t].
Proof.
  intros Hall Hne.
  assert (Hstep : forall l, Forall (eq (VStr t)) l ->
                            foldl Set_add [VStr t] l = [VStr t]).
  { induction 1 as [|? ? <- _ IH]; simpl; [done|].
    unfold Set_add at 2. simpl. by rewrite String.eqb_refl. }
  destruct Hall as [|? ? <- Hall]; [done|]. simpl. by apply Hstep.
Qed.

Lemma filter_length_all {A} (p : A -> bool) (l : list A) :
  length (List.filter p l) = length l -> Forall (fun a => p a = true) l.
Proof.
  induction l as [|a l IH]; simpl; [constructor|].
  pose proof (List.filter_length_le p l).
  destruct (p a) eqn:Hp; simpl; intros Hlen; [|lia].
  constructor; [done|]. apply IH. lia.
Qed.

Lemma filter_split {A} (p : A -> bool) (l : list A) :
  length l =
  (length (List.filter p l) + length (List.filter (fun a => negb (p a)) l))%nat.
Proof.
  induction l as [|a l IH]; simpl; [done|].
  destruct (p a); simpl; lia.
Qed.

(** C1. For every collection of records and every fiscal month in which
    the trainee identifier [t] appears N > 1 times with training type
    Qualification, the aggregation, whenever it completes, gives a month
    whose set of qualified operators holds [t] exactly once and whose count
    of realised qualifications takes the N rows of [t] one by one: it is N
    plus the Qualification rows of other trainees, so that with no such
    rows the operators count is 1 and the realised count is N. The
    aggregation completes on plans it can read and on records whose month
    is no member of [Object.prototype]. *)
Theorem operators_distinct_sessions_counted
    (yearlyRecords yearlyPlannedSessions : list obj) (month t : string) :
  month ∈ FISCAL_MONTHS ->
  let rows := List.filter (qualified_in month) yearlyRecords in
  let N := length (List.filter (trainee_is t) rows) in
  let others := length (List.filter (fun r => negb (trainee_is t r)) rows) in
  (1 < N)%nat ->
  (Forall plan_ok yearlyPlannedSessions -> Forall month_is_plain yearlyRecords ->
   exists monthlyData,
     calculateMonthlyData yearlyRecords yearlyPlannedSessions = Normal monthlyData) /\
  (forall monthlyData,
     calculateMonthlyData yearlyRecords yearlyPlannedSessions = Normal monthlyData ->
     exists data,
       monthlyData !! month = Some data /\
       occurrences t (operatorsQual data) = 1%nat /\
       qualifRealised data = (N + others)%nat /\
       (others = 0%nat ->
        Set_size (operatorsQual data) = 1%nat /\ qualifRealised data = N)).
Proof.
  intros Hmonth rows N others HN.
  split; [apply calculateMonthlyData_completes|].
  intros md. unfold calculateMonthlyData.
  destruct (forEach plan_step _ _) as [md0|] eqn:Hplans; [|discriminate].
  simpl. intros Hrecords.
  pose proof (records_view _ _ _ month Hrecords) as Hv.
  rewrite (plans_view _ _ _ month Hplans), initial_monthlyData_view in Hv by done.
  simpl in Hv. fold rows in Hv. rewrite foldl_qual_bump in Hv. simpl in Hv.
  unfold qual_view in Hv.
  destruct (md !! month) as [data|] eqn:Hdata; [|discriminate].
  injection Hv as Hops Hcount.
  assert (Hsplit : length rows = (N + others)%nat) by apply filter_split.
  exists data. split; [done|]. split; [|split; [lia|]].
  - rewrite Hops, foldl_Set_add_occurrences by (cbn; lia).
    replace (existsb _ _) with true; [done|]. symmetry.
    apply existsb_exists.
    destruct (List.filter (trainee_is t) rows) as [|r ?] eqn:Hf; [simpl in *; lia|].
    assert (Hr : List.In r (List.filter (trainee_is t) rows)) by (rewrite Hf; by left).
    apply List.filter_In in Hr as [Hin Ht].
    exists (get r "Trainee's ID Number"). split.
    + apply List.in_map_iff. eauto.
    + unfold trainee_is in Ht. by destruct (get r "Trainee's ID Number").
  - intros Hnone. split; [|lia]. unfold Set_size. rewrite Hops.
    assert (Hall : length (List.filter (trainee_is t) rows) = length rows) by lia.
    apply filter_length_all in Hall.
    rewrite foldl_Set_add_single with (t := t); [done| |].
    + apply Forall_fmap. eapply Forall_impl; [exact Hall|].
      intros r Hr. simpl. unfold trainee_is in Hr.
      destruct (get r "Trainee's ID Number"); try discriminate.
      apply String.eqb_eq in Hr. by subst.
    + intros Hnil. apply fmap_nil_inv in Hnil.
      subst N. rewrite Hnil in HN. simpl in HN. lia.
Qed.

(** ** The analysis view: hours by bucket and sector *)

Lemma has_dash_app a b : has_dash (a +:+ "-" +:+ b) = true.
Proof.
  induction a as [|ch a IH]; [reflexivity|].
  change (Ascii.eqb ch "-" || has_dash (a +:+ "-" +:+ b) = true).
  rewrite IH. apply orb_true_r.
Qed.

(** No key is a name of [Object.prototype]: none of those has a dash. *)
Lemma bucket_key_plain bucket r : inherited (bucket_key bucket r) = false.
Proof.
  unfold inherited. apply bool_decide_eq_false. intros Hin.
  assert (Hall : Forall (fun name => has_dash name = false) Object_prototype_names).
  { unfold Object_prototype_names. repeat constructor. }
  rewrite Forall_forall in Hall. apply Hall in Hin.
  unfold bucket_key in Hin. by rewrite has_dash_app in Hin.
Qed.

(** Every record opens, or adds to, the bar of its key, and of no other. *)
Lemma hoursByGender_step_dom bucket acc r :
  dom (hoursByGender_step bucket acc r) = {[ bucket_key bucket r ]} ∪ dom acc.
Proof.
  unfold hoursByGender_step. fold (bucket_key bucket r).
  generalize (bucket_key_plain bucket r).
  generalize (bucket_key bucket r). intros key Hplain.
  unfold read. destruct (acc !! key) as [bar|] eqn:Hbar.
  - assert (key ∈ dom acc) by (apply elem_of_dom; eauto).
    rewrite Hbar.
    destruct (is_type r "Gender" "Male"), (is_type r "Gender" "Female");
      rewrite ?dom_insert_L; set_solver.
  - rewrite Hplain, lookup_insert_eq.
    destruct (is_type r "Gender" "Male"), (is_type r "Gender" "Female");
      rewrite ?dom_insert_L; set_solver.
Qed.

Lemma hoursByGender_dom bucket records acc :
  dom (foldl (hoursByGender_step bucket) acc records) =
  list_to_set (bucket_key bucket <$> records) ∪ dom acc.
Proof.
  revert acc. induction records as [|r records IH]; intros acc; simpl.
  - set_solver.
  - rewrite IH, hoursByGender_step_dom. set_solver.
Qed.

(** The keys of the weekly and of the monthly chart are the keys of the
    records: the bucket, a dash, and the sector as [String] prints it. *)
Lemma weeklyHoursByGender_keys records :
  dom (weeklyHoursByGender records) = list_to_set (bucket_key "Week" <$> records).
Proof. unfold weeklyHoursByGender. rewrite hoursByGender_dom. set_solver. Qed.

Lemma monthlyHoursByGender_keys records :
  dom (monthlyHoursByGender records) = list_to_set (bucket_key "Month" <$> records).
Proof. unfold monthlyHoursByGender. rewrite hoursByGender_dom. set_solver. Qed.

(** A record without a sector is counted under "undefined", and a record
    with an empty sector under the empty string. *)
Lemma bucket_key_missing_sector bucket (r : obj) :
  r !! "Sector" = None ->
  bucket_key bucket r = to_string (get r bucket) +:+ "-undefined".
Proof. intros H. unfold bucket_key, get. by rewrite H. Qed.

Lemma bucket_key_empty_sector bucket (r : obj) :
  r !! "Sector" = Some (VStr "") ->
  bucket_key bucket r = to_string (get r bucket) +:+ "-".
Proof. intros H. unfold bucket_key, get. by rewrite H. Qed.

(** C7, on the code. A record of week 1 of July that has no sector is
    counted in the weekly chart under the key "Week 1-undefined" and in the
    monthly chart under "July-undefined"; neither chart has a key whose
    sector part is "Unknown". *)
Theorem hoursByGender_missing_sector :
  let r : obj := {[ "Week" := VStr "Week 1"; "Month" := VStr "July";
                    "Gender" := VStr "Male";
                    "Number of Training Hours" := VStr "2" ]} in
  dom (weeklyHoursByGender [r]) = {[ "Week 1-undefined" ]} /\
  dom (monthlyHoursByGender [r]) = {[ "July-undefined" ]} /\
  ("Week 1-Unknown" ∉ dom (weeklyHoursByGender [r])) /\
  ("July-Unknown" ∉ dom (monthlyHoursByGender [r])).
Proof.
  intros r. rewrite weeklyHoursByGender_keys, monthlyHoursByGender_keys. simpl.
  rewrite !bucket_key_missing_sector by done.
  change (to_string (get r "Week") +:+ "-undefined") with "Week 1-undefined".
  change (to_string (get r "Month") +:+ "-undefined") with "July-undefined".
  rewrite !union_empty_r_L, !elem_of_singleton. repeat split; discriminate.
Qed.

(** ** Average hours *)

(** *** Per trainer *)

Lemma performance_step_other acc r trainer :
  trainer_of r ≠ trainer ->
  performance_step acc r !! trainer = acc !! trainer.
Proof.
  intros Hne. unfold performance_step, read.
  destruct (acc !! trainer_of r) as [data|] eqn:Hdata.
  - rewrite Hdata. by rewrite lookup_insert_ne.
  - destruct (inherited (trainer_of r)).
    + by rewrite Hdata.
    + rewrite lookup_insert_eq. by rewrite !lookup_insert_ne.
Qed.

Lemma performance_step_inherited acc r :
  inherited (trainer_of r) = true -> acc !! trainer_of r = None ->
  performance_step acc r !! trainer_of r = None.
Proof.
  intros Hinh Hnone. unfold performance_step, read. by rewrite !Hnone, !Hinh, Hnone.
Qed.

Lemma performance_step_same acc r :
  inherited (trainer_of r) = false ->
  performance_step acc r !! trainer_of r =
  let data := default no_sessions (acc !! trainer_of r) in
  Some {| hours := (hours data + hours_of r)%float;
          sessions := (sessions data + 1)%nat |}.
Proof.
  intros Hinh. unfold performance_step, read.
  destruct (acc !! trainer_of r) as [data|] eqn:Hdata.
  - rewrite Hdata. simpl. by rewrite lookup_insert_eq.
  - rewrite Hinh, lookup_insert_eq. simpl. by rewrite lookup_insert_eq.
Qed.

Lemma performance_fold records acc trainer :
  inherited trainer = false ->
  foldl performance_step acc records !! trainer =
  match List.filter (of_trainer trainer) records with
  | [] => acc !! trainer
  | subset =>
      let data := default no_sessions (acc !! trainer) in
      Some {| hours := foldl (fun total r => (total + hours_of r)%float)
                             (hours data) subset;
              sessions := (sessions data + length subset)%nat |}
  end.
Proof.
  intros Hinh. revert acc.
  induction records as [|r records IH]; intros acc; simpl; [done|].
  rewrite IH. unfold of_trainer at 2 4.
  destruct (String.eqb_spec (trainer_of r) trainer) as [<-|Hne].
  - rewrite performance_step_same by done. simpl.
    destruct (List.filter _ records); simpl; [by rewrite Nat.add_comm|].
    do 2 f_equal. lia.
  - by rewrite performance_step_other.
Qed.

Lemma performance_fold_inherited records acc trainer :
  inherited trainer = true -> acc !! trainer = None ->
  foldl performance_step acc records !! trainer = None.
Proof.
  intros Hinh. revert acc.
  induction records as [|r records IH]; intros acc Hnone; simpl; [done|].
  apply IH. destruct (decide (trainer_of r = trainer)) as [<-|Hne].
  - by apply performance_step_inherited.
  - by rewrite performance_step_other.
Qed.

(** What the table holds for a trainer: the hours and the count of the
    trainer's sessions, of which there is at least one. *)
Lemma calculatePerformance_entry records trainer data :
  calculatePerformance records !! trainer = Some data ->
  let subset := List.filter (of_trainer trainer) records in
  subset ≠ [] /\
  hours data = sum_hours subset /\
  sessions data = length subset.
Proof.
  unfold calculatePerformance. intros Hdata.
  destruct (inherited trainer) eqn:Hinh.
  { by rewrite performance_fold_inherited in Hdata. }
  rewrite performance_fold in Hdata by done. simpl.
  destruct (List.filter _ records) as [|r subset] eqn:Hsub; [done|].
  injection Hdata as <-. done.
Qed.

(** A record that names no trainer is counted under "Unknown". *)
Lemma trainer_of_missing (r : obj) :
  truthy (get r "Trainer") = false -> trainer_of r = "Unknown".
Proof. intros H. unfold trainer_of. by rewrite H. Qed.

(** *** Per gender and training type *)

Lemma avgHours_step_view avgHours r avgHours' type gender :
  avgHours_step avgHours r = Normal avgHours' ->
  cell_view avgHours' type gender =
  (if in_cell type gender r then cell_bump r else id) <$> cell_view avgHours type gender.
Proof.
  unfold avgHours_step, in_cell, cell_view, read.
  set (ty := to_string (get r "Training Type")).
  set (g := to_string (get r "Gender")).
  assert (Hid : forall o : option Cell, o = id <$> o) by (by intros []).
  destruct (avgHours !! ty) as [row|] eqn:Hrow.
  - destruct (row !! g) as [cell|] eqn:Hcell.
    + intros [= <-].
      destruct (String.eqb_spec ty type) as [<-|Hty]; simpl.
      * rewrite lookup_insert_eq, Hrow. simpl.
        destruct (String.eqb_spec g gender) as [<-|Hg].
        -- by rewrite lookup_insert_eq, Hcell.
        -- rewrite lookup_insert_ne by done. apply Hid.
      * rewrite lookup_insert_ne by done. apply Hid.
    + intros Heq.
      assert (avgHours' = avgHours) as -> by (by destruct (inherited g); injection Heq).
      destruct (String.eqb_spec ty type) as [<-|Hty]; simpl; [|apply Hid].
      rewrite Hrow. simpl.
      destruct (String.eqb_spec g gender) as [<-|Hg]; [|apply Hid].
      by rewrite Hcell.
  - intros Heq.
    assert (avgHours' = avgHours) as ->.
    { destruct (inherited ty); [destruct (member_update_throws ty g)|];
        first [discriminate Heq | by injection Heq]. }
    destruct (String.eqb_spec ty type) as [<-|Hty]; simpl; [|apply Hid].
    by rewrite Hrow.
Qed.

Lemma avgHours_fold_view records avgHours avgHours' type gender :
  forEach avgHours_step avgHours records = Normal avgHours' ->
  cell_view avgHours' type gender =
  (fun cell => foldl (fun cell r => cell_bump r cell) cell
                 (List.filter (in_cell type gender) records))
  <$> cell_view avgHours type gender.
Proof.
  revert avgHours. induction records as [|r records IH]; intros avgHours; simpl.
  - intros [= <-]. by destruct (cell_view _ _ _).
  - destruct (avgHours_step avgHours r) as [step|] eqn:Hstep; [|discriminate].
    intros Hrest. rewrite (IH _ Hrest), (avgHours_step_view _ _ _ _ _ Hstep).
    by destruct (in_cell type gender r), (cell_view avgHours type gender).
Qed.

Lemma foldl_cell_bump subset cell :
  foldl (fun cell r => cell_bump r cell) cell subset =
  {| h := foldl (fun total r => (total + hours_of r)%float) (h cell) subset;
     c := (c cell + length subset)%nat |}.
Proof.
  revert cell. induction subset as [|r subset IH]; intros [h0 c0]; simpl.
  - by rewrite Nat.add_0_r.
  - rewrite IH. simpl. f_equal. lia.
Qed.

Lemma avgHours_of_completes records :
  Forall type_is_plain records -> exists avgHours, avgHours_of records = Normal avgHours.
Proof.
  intros Hall. unfold avgHours_of. generalize avgHours_init.
  induction Hall as [|r records Hr _ IH]; intros avgHours; simpl; [eauto|].
  assert (exists step, avgHours_step avgHours r = Normal step) as [step ->]; [|apply IH].
  unfold avgHours_step, read.
  apply (bool_decide_eq_false_2 _) in Hr. fold (inherited (to_string (get r "Training Type"))) in Hr.
  rewrite Hr.
  destruct (avgHours !! _) as [row|]; [|eauto].
  destruct (row !! _); [eauto|].
  destruct (inherited (to_string (get r "Gender"))); eauto.
Qed.

Lemma cell_average_mean subset :
  cell_average {| h := sum_hours subset; c := length subset |} = mean_hours subset.
Proof. by destruct subset. Qed.

Lemma avgHours_of_cell records tbl type gender :
  avgHours_of records = Normal tbl ->
  type ∈ ["Qualification"; "Refreshment"] -> gender ∈ ["Male"; "Female"] ->
  let subset := List.filter (in_cell type gender) records in
  cell_view tbl type gender = Some {| h := sum_hours subset; c := length subset |}.
Proof.
  intros Htbl Htype Hgender. simpl.
  rewrite (avgHours_fold_view _ _ _ type gender Htbl).
  assert (Hinit : cell_view avgHours_init type gender = Some {| h := 0; c := 0 |}).
  { rewrite !elem_of_cons, elem_of_nil in Htype, Hgender.
    destruct Htype as [->|[->|[]]], Hgender as [->|[->|[]]]; by vm_compute. }
  rewrite Hinit. simpl. by rewrite foldl_cell_bump.
Qed.

Lemma of_trainer_led_by trainer (r : obj) :
  of_trainer trainer r = led_by trainer r.
Proof.
  unfold of_trainer, trainer_of, led_by, get.
  destruct (r !! "Trainer") as [v|]; simpl; [|done].
  by destruct (truthy v).
Qed.

Lemma calculatePerformance_led_by records trainer :
  inherited trainer = false ->
  calculatePerformance records !! trainer =
  match List.filter (led_by trainer) records with
  | [] => None
  | subset => Some {| hours := sum_hours subset; sessions := length subset |}
  end.
Proof.
  intros Hinh. unfold calculatePerformance.
  rewrite performance_fold, lookup_empty by done.
  rewrite (List.filter_ext _ _ (of_trainer_led_by trainer)).
  by destruct (List.filter _ records).
Qed.

(** C8. Over no session the average is zero: the trainer column reads
    "0.00" and a gender and type cell is 0. A trainer with sessions has a
    row in the table, with the sum of the hours and the count of those
    sessions, and the row's average is the sum over the count, printed with
    two decimals; the table has no row over no session. A cell of a gender
    and a training type is the sum of the hours of its sessions over their
    count. Computing the cells completes when no training type names a
    member of [Object.prototype]. *)
Theorem average_hours_zero_guard (records : list obj) :
  (forall data, sessions data = 0%nat -> avgHours data = "0.00") /\
  (forall trainer,
     let subset := List.filter (led_by trainer) records in
     inherited trainer = false -> subset ≠ [] ->
     exists data,
       calculatePerformance records !! trainer = Some data /\
       hours data = sum_hours subset /\
       sessions data = length subset /\
       avgHours data = Num.toFixed2 Number_toString_other (mean_hours subset)) /\
  (forall trainer data,
     calculatePerformance records !! trainer = Some data ->
     let subset := List.filter (led_by trainer) records in
     subset ≠ [] /\
     avgHours data = Num.toFixed2 Number_toString_other (mean_hours subset)) /\
  (forall cell, c cell = 0%nat -> cell_average cell = 0%float) /\
  (forall tbl gender,
     avgHours_of records = Normal tbl -> gender ∈ ["Male"; "Female"] ->
     averages tbl gender =
     Normal (mean_hours (List.filter (in_cell "Qualification" gender) records),
             mean_hours (List.filter (in_cell "Refreshment" gender) records))) /\
  (mean_hours [] = 0%float /\ PrimFloat.is_nan (mean_hours []) = false) /\
  (forall r subset,
     mean_hours (r :: subset) =
     (sum_hours (r :: subset) / Num.of_nat (length (r :: subset)))%float) /\
  (Forall type_is_plain records -> exists tbl, avgHours_of records = Normal tbl).
Proof.
  split; [|split; [|split; [|split; [|split; [|split; [|split]]]]]].
  - intros data Hzero. unfold avgHours. by rewrite Hzero.
  - intros trainer subset Hinh Hne.
    rewrite calculatePerformance_led_by by done. fold subset.
    destruct subset as [|r subset']; [done|].
    eexists. split; [reflexivity|]. split; [done|]. split; [done|]. reflexivity.
  - intros trainer data Hdata subset.
    destruct (calculatePerformance_entry records trainer data Hdata)
      as (Hne & Hhours & Hsessions).
    rewrite (List.filter_ext _ _ (of_trainer_led_by trainer)) in Hne, Hhours, Hsessions.
    fold subset in Hne, Hhours, Hsessions. split; [exact Hne|].
    unfold avgHours. rewrite Hhours, Hsessions.
    destruct subset; [done|reflexivity].
  - intros cell Hzero. unfold cell_average. by rewrite Hzero.
  - intros tbl gender Htbl Hgender. unfold averages.
    pose proof (avgHours_of_cell records tbl "Qualification" gender Htbl) as Hq.
    pose proof (avgHours_of_cell records tbl "Refreshment" gender Htbl) as Hr.
    unfold cell_view in Hq, Hr. simpl in Hq, Hr.
    rewrite Hq, Hr by (done || decide_elem).
    by rewrite !cell_average_mean.
  - split; reflexivity.
  - reflexivity.
  - apply avgHours_of_completes.
Qed.

End Properties.

(** * The properties at concrete inputs *)

(** The dates of the specification, read from the strings the form gives. *)
Lemma fiscal_year_of_form_dates :
  getFiscalYear (DateObj (Sample.parse_ymd (Str.replace_dashes "2024-06-30"))) =
    "FY 2023" /\
  getFiscalYear (DateObj (Sample.parse_ymd (Str.replace_dashes "2024-07-01"))) =
    "FY 2024" /\
  getFiscalYear (DateObj (Sample.parse_ymd (Str.replace_dashes "soon"))) = "".
Proof. repeat split. Qed.

(** Each of the five week labels occurs. *)
Lemma week_labels_all_occur :
  Forall2
    (fun date week =>
       (fun enriched => get enriched "Week") <$>
       match _enrichRecord (P := Sample.platform) Sample.dataService
               (Sample.session date "1001" "Qualification" "3") with
       | Normal enriched => Some enriched
       | Throw _ => None
       end = Some (VStr week))
    ["2024-02-01"; "2024-02-08"; "2024-02-15"; "2024-02-22"; "2024-02-29"]
    ["Week 1"; "Week 2"; "Week 3"; "Week 4"; "Week 5"].
Proof. repeat constructor. Qed.

Lemma week_label_of_valid_date_witness :
  exists enriched,
    _enrichRecord (P := Sample.platform) Sample.dataService Sample.january_31 =
      Normal enriched /\
    get enriched "Week" = VStr "Week 5".
Proof.
  destruct (week_label_of_valid_date (P := Sample.platform) Sample.dataService
              Sample.january_31 "2024-01-31" 2024 0 31)
    as (enriched & N & He & Hweek & _ & _ & _ & _ & _ & H31);
    [reflexivity | reflexivity
    | unfold valid_date; change (days_in_month 2024 0) with 31; lia |].
  exists enriched. split; [exact He|]. rewrite Hweek, H31 by reflexivity. reflexivity.
Defined.

Lemma _enrichRecord_unparseable_date_witness :
  exists enriched,
    _enrichRecord (P := Sample.platform) Sample.dataService Sample.misdated =
      Normal enriched /\
    get enriched "Month" = VStr "Invalid Date" /\
    get enriched "Week" = VStr "Week NaN".
Proof.
  apply (_enrichRecord_unparseable_date (P := Sample.platform) Sample.dataService
           Sample.misdated "soon"); reflexivity.
Defined.

(** C6, as stated, fails. A record dated "soon" is enriched with the month
    "Invalid Date", which is neither "Unknown" nor empty, and enrichment of
    a record without a training date throws. *)
Lemma unparseable_date_counterexample :
  Sample.parse_ymd (Str.replace_dashes "soon") = InvalidDate /\
  ¬ (exists enriched,
       _enrichRecord (P := Sample.platform) Sample.dataService Sample.misdated =
         Normal enriched /\
       (get enriched "Month" = VStr "Unknown" \/ get enriched "Month" = VStr "")) /\
  ¬ (exists enriched,
       _enrichRecord (P := Sample.platform) Sample.dataService Sample.undated =
         Normal enriched).
Proof.
  split; [reflexivity|]. split.
  - destruct (_enrichRecord_completes (P := Sample.platform) Sample.dataService
                Sample.misdated "soon" eq_refl)
      as (e & He & _ & _ & _ & _ & Hmonth & _).
    intros (e' & He' & Hbucket). rewrite He in He'. injection He' as <-.
    rewrite Hmonth in Hbucket. destruct Hbucket; discriminate.
  - destruct (_enrichRecord_throws (P := Sample.platform) Sample.dataService
                Sample.undated) as (e & He).
    + intros s Hs. discriminate Hs.
    + intros (e' & He'). rewrite He in He'. discriminate.
Qed.

Lemma addRecord_unknown_trainee_witness :
  exists enriched w',
    addRecord (P := Sample.platform) 1700000000000 0.5 Sample.unknown_trainee
      Sample.world = (Normal tt, w') /\
    trainingData (service w') = enriched :: [Sample.logged] /\
    get enriched "Full Name" = VStr "Unknown" /\
    get enriched "Gender" = VStr "Unknown" /\
    get enriched "Project" = VStr "Unknown" /\
    get enriched "Cost Center" = VStr "Unknown".
Proof.
  apply (addRecord_unknown_trainee (P := Sample.platform) 1700000000000 0.5
           Sample.unknown_trainee "2024-03-05" Sample.world); [reflexivity|].
  repeat constructor; intros H; vm_compute in H; discriminate.
Defined.

Lemma updateRecord_preserves_trainer_witness :
  exists stored w',
    updateRecord (P := Sample.platform) Sample.edit_by_bob Sample.world =
      (Normal tt, w') /\
    getRecordById (service w') (VStr "17000000000000.25") = Some stored /\
    get Sample.edit_by_bob "Trainer" = VStr "Bob" /\
    get stored "Trainer" = VStr "Alice" /\
    get stored "Number of Training Hours" = VStr "6".
Proof.
  destruct (updateRecord_preserves_trainer (P := Sample.platform)
              Sample.edit_by_bob Sample.logged "2024-07-09" Sample.world)
    as (stored & w' & Hrun & Hstored & Htrainer & Hfields & _);
    [reflexivity | reflexivity |].
  exists stored, w'. split; [exact Hrun|]. split; [exact Hstored|].
  split; [reflexivity|]. split; [exact Htrainer|].
  unfold get. rewrite Hfields; [reflexivity | discriminate | decide_elem].
Defined.

Lemma updateRecord_unknown_id_witness :
  updateRecord (P := Sample.platform) Sample.edit_of_stranger Sample.world =
    (Normal tt, Sample.world).
Proof.
  apply (updateRecord_unknown_id (P := Sample.platform)).
  repeat constructor.
Defined.

Lemma operators_distinct_sessions_counted_witness :
  exists monthlyData data,
    calculateMonthlyData (P := Sample.platform) Sample.july Sample.july_plans =
      Normal monthlyData /\
    monthlyData !! "July" = Some data /\
    occurrences "1002" (operatorsQual data) = 1%nat /\
    qualifRealised data = 3%nat.
Proof.
  destruct (operators_distinct_sessions_counted (P := Sample.platform)
              Sample.july Sample.july_plans "July" "1002")
    as (Hcompletes & Hmonth).
  - decide_elem.
  - vm_compute. lia.
  - destruct Hcompletes as (monthlyData & Hrun).
    + repeat constructor; eexists; reflexivity.
    + repeat constructor; decide_elem.
    + destruct (Hmonth monthlyData Hrun) as (data & Hdata & Hops & Hrows & _).
      exists monthlyData, data. auto.
Defined.

Lemma average_hours_zero_guard_witness :
  (exists data,
     calculatePerformance (P := Sample.platform) Sample.july !! "Alice" =
       Some data /\
     sessions data = 3%nat /\
     avgHours (P := Sample.platform) data = "2.67") /\
  calculatePerformance (P := Sample.platform) Sample.july !! "Dora" = None /\
  (exists tbl,
     avgHours_of (P := Sample.platform) Sample.july = Normal tbl /\
     averages tbl "Male" = Normal (3, 1)%float /\
     averages tbl "Female" = Normal (3, 0)%float).
Proof.
  destruct (average_hours_zero_guard (P := Sample.platform) Sample.july)
    as (_ & Hrow & Hnone & _ & Hcells & _ & _ & Hcompletes).
  split; [|split].
  - destruct (Hrow "Alice") as (data & Hdata & _ & Hsessions & Havg);
      [reflexivity | discriminate |].
    exists data. split; [exact Hdata|]. split; [exact Hsessions|].
    rewrite Havg. vm_compute. reflexivity.
  - destruct (calculatePerformance (P := Sample.platform) Sample.july !! "Dora")
      as [data|] eqn:Hdata; [|reflexivity].
    destruct (Hnone "Dora" data Hdata) as [Hne _]. by destruct Hne.
  - destruct Hcompletes as (tbl & Htbl); [repeat constructor; decide_elem|].
    exists tbl. split; [exact Htbl|]. split.
    + rewrite (Hcells tbl "Male" Htbl) by decide_elem. vm_compute. reflexivity.
    + rewrite (Hcells tbl "Female" Htbl) by decide_elem. vm_compute. reflexivity.
Defined.

(** * The store beyond the claims *)

Section Store.
Context {P : Platform}.

(** ** How the methods run *)

Lemma addRecord_run now random (record : obj) w :
  addRecord now random record w =
  match _enrichRecord (service w) (stamped (service w) now random record) with
  | Normal enriched =>
      _saveToLocalStorage
        (with_trainingData w (enriched :: trainingData (service w)))
  | Throw e => (Throw e, w)
  end.
Proof.
  unfold addRecord, stamped, mbind, M_bind, this, lift, set_trainingData. simpl.
  by destruct (_enrichRecord _ _).
Qed.

Lemma updateRecord_run (updatedRecord : obj) w :
  updateRecord updatedRecord w =
  match findIndex (fun record => strict_eq (get record "Id") (get updatedRecord "Id"))
                  (trainingData (service w)) with
  | Some index =>
      match trainingData (service w) !! index with
      | Some original =>
          match _enrichRecord (service w)
                  (set updatedRecord "Trainer" (get original "Trainer")) with
          | Normal enriched =>
              _saveToLocalStorage
                (with_trainingData w
                   (<[index := enriched]> (trainingData (service w))))
          | Throw e => (Throw e, w)
          end
      | None => (Throw (TypeError "Cannot read properties of undefined"), w)
      end
  | None => (Normal tt, w)
  end.
Proof.
  unfold updateRecord, mbind, M_bind, this, lift, set_trainingData, throw. simpl.
  destruct (findIndex _ _) as [index|]; [|done].
  destruct (_ !! index); [|done]. by destruct (_enrichRecord _ _).
Qed.

Lemma deleteRecord_run id w :
  deleteRecord id w =
  _saveToLocalStorage
    (with_trainingData w
       (List.filter (fun record => negb (strict_eq (get record "Id") id))
                    (trainingData (service w)))).
Proof. reflexivity. Qed.

Lemma findIndex_lookup {A} (p : A -> bool) (l : list A) i :
  findIndex p l = Some i -> exists x, l !! i = Some x /\ p x = true.
Proof.
  revert i. induction l as [|a l IH]; intros i; simpl; [discriminate|].
  destruct (p a) eqn:Hp.
  - intros [= <-]. eauto.
  - destruct (findIndex p l) as [j|]; [|discriminate].
    intros [= <-]. by apply IH.
Qed.

Lemma find_filter_negb {A} (p : A -> bool) (l : list A) :
  List.find p (List.filter (fun a => negb (p a)) l) = None.
Proof.
  induction l as [|a l IH]; simpl; [done|].
  destruct (p a) eqn:Hp; simpl; [done|]. by rewrite Hp.
Qed.

Lemma filter_sublist {A} (p : A -> bool) (l : list A) : sublist (List.filter p l) l.
Proof.
  induction l as [|a l IH]; simpl; [constructor|].
  destruct (p a); by constructor.
Qed.

Lemma filter_all {A} (p : A -> bool) (l : list A) :
  Forall (fun a => p a = true) l -> List.filter p l = l.
Proof. induction 1 as [|a l Ha _ IH]; simpl; [done|]. by rewrite Ha, IH. Qed.

(** ** Deleting *)

(** X1. [deleteRecord] completes for every identifier. Afterwards a lookup
    of that identifier finds nothing, and the log is the log of before
    without the records of that identifier: every other record stays, as
    many times as it was there and in its place among the others. The
    plans, the roster and the user are as before. *)
Theorem deleteRecord_removes id w :
  exists w',
    deleteRecord id w = (Normal tt, w') /\
    getRecordById (service w') id = None /\
    trainingData (service w') =
      List.filter (fun r => negb (strict_eq (get r "Id") id))
                  (trainingData (service w)) /\
    (forall r, r ∈ trainingData (service w') <->
               r ∈ trainingData (service w) /\ strict_eq (get r "Id") id = false) /\
    sublist (trainingData (service w')) (trainingData (service w)) /\
    plannedSessions (service w') = plannedSessions (service w) /\
    orgaData (service w') = orgaData (service w) /\
    currentUser (service w') = currentUser (service w).
Proof.
  rewrite deleteRecord_run.
  match goal with |- context [_saveToLocalStorage ?w1] =>
    destruct (_saveToLocalStorage_completes w1) as (w' & -> & Hservice) end.
  exists w'. split; [done|]. unfold getRecordById. rewrite Hservice. simpl.
  split; [apply find_filter_negb|]. split; [done|].
  split; [|split; [apply filter_sublist|done]].
  intros r. rewrite !list_elem_of_In, List.filter_In, negb_true_iff. done.
Qed.

(** X2. Deleting an identifier that no stored record has leaves the
    service as it was; in particular a second deletion of the same
    identifier changes nothing more. *)
Theorem deleteRecord_absent id w :
  Forall (fun record => strict_eq (get record "Id") id = false)
         (trainingData (service w)) ->
  exists w', deleteRecord id w = (Normal tt, w') /\ service w' = service w.
Proof.
  intros Habsent. rewrite deleteRecord_run.
  match goal with |- context [_saveToLocalStorage ?w1] =>
    destruct (_saveToLocalStorage_completes w1) as (w' & -> & Hservice) end.
  exists w'. split; [done|]. rewrite Hservice. simpl.
  rewrite filter_all; [by destruct w as [[]]|].
  eapply Forall_impl; [exact Habsent|]. intros r ->. done.
Qed.

(** ** Adding *)

(** X3. For every record with a training date, [addRecord] completes and
    puts one record at the head of the log, before the records already
    there. That record carries the identifier made from the clock and the
    random number, and a lookup of this identifier returns it; its trainer
    is the payload's when the payload names one, and the acting user
    otherwise. *)
Theorem addRecord_then_lookup now random (record : obj) w :
  dated record ->
  exists enriched w',
    addRecord now random record w = (Normal tt, w') /\
    trainingData (service w') = enriched :: trainingData (service w) /\
    get enriched "Id" = VStr (to_string (VNum now) +:+ to_string (VNum random)) /\
    getRecordById (service w') (get enriched "Id") = Some enriched /\
    get enriched "Trainer" =
      (if truthy (get record "Trainer") then get record "Trainer"
       else VStr (currentUser (service w))).
Proof.
  intros [s Hdate]. rewrite addRecord_run.
  assert (Hdate' : get (stamped (service w) now random record) "Training Date" = VStr s).
  { unfold stamped. by rewrite !get_set_ne. }
  destruct (_enrichRecord_completes (service w) _ s Hdate')
    as (enriched & -> & _ & _ & _ & _ & _ & _ & Hrest).
  match goal with |- context [_saveToLocalStorage ?w1] =>
    destruct (_saveToLocalStorage_completes w1) as (w' & -> & Hservice) end.
  exists enriched, w'. unfold getRecordById. rewrite Hservice. simpl.
  assert (Hfield : forall k, k ∉ derived_fields ->
            get enriched k = get (stamped (service w) now random record) k).
  { intros k Hk. unfold get. by rewrite Hrest. }
  assert (Hid : get enriched "Id" =
                VStr (to_string (VNum now) +:+ to_string (VNum random))).
  { rewrite Hfield by decide_elem. unfold stamped.
    by rewrite get_set_ne, get_set_eq. }
  repeat split; [exact Hid | |].
  - rewrite Hid. simpl. by rewrite String.eqb_refl.
  - rewrite Hfield by decide_elem. unfold stamped.
    by rewrite get_set_eq, !get_set_ne.
Qed.

(** ** What a write leaves alone *)

Lemma importData_run stamps (newData : list obj) w :
  importData stamps newData w =
  match map_from (fun i => import_record (service w) (stamps i)) 0 newData with
  | Normal data => _saveToLocalStorage (with_trainingData w data)
  | Throw e => (Throw e, w)
  end.
Proof.
  unfold importData, mbind, M_bind, this, lift, set_trainingData. simpl.
  by destruct (map_from _ _ _).
Qed.

Lemma addPlan_run now (plan : obj) w :
  addPlan now plan w =
  match plan_month (set plan "Id" (VStr (to_string (VNum now)))) with
  | Normal month =>
      _saveToLocalStorage
        (with_plannedSessions w
           (plannedSessions (service w) ++
            [set (set plan "Id" (VStr (to_string (VNum now)))) "Month" (VStr month)]))
  | Throw e => (Throw e, w)
  end.
Proof.
  unfold addPlan, mbind, M_bind, this, lift, set_plannedSessions. simpl.
  by destruct (plan_month _).
Qed.

Lemma updatePlan_run (updatedPlan : obj) w :
  updatePlan updatedPlan w =
  match findIndex (fun p => strict_eq (get p "Id") (get updatedPlan "Id"))
                  (plannedSessions (service w)) with
  | Some index =>
      match plan_month updatedPlan with
      | Normal month =>
          _saveToLocalStorage
            (with_plannedSessions w
               (<[index := set updatedPlan "Month" (VStr month)]>
                  (plannedSessions (service w))))
      | Throw e => (Throw e, w)
      end
  | None => (Normal tt, w)
  end.
Proof.
  unfold updatePlan, mbind, M_bind, this, lift, set_plannedSessions. simpl.
  destruct (findIndex _ _); [|done]. by destruct (plan_month _).
Qed.

Lemma deletePlan_run id w :
  deletePlan id w =
  _saveToLocalStorage
    (with_plannedSessions w
       (List.filter (fun p => negb (strict_eq (get p "Id") id))
                    (plannedSessions (service w)))).
Proof. reflexivity. Qed.

Lemma _saveToLocalStorage_service w :
  service (_saveToLocalStorage w).2 = service w.
Proof.
  destruct (_saveToLocalStorage_completes w) as (w' & Hrun & Hservice).
  by rewrite Hrun.
Qed.

(** Brings a method to the save it ends with, or to the world it leaves
    untouched. *)
Ltac run_method :=
  rewrite ?addRecord_run, ?updateRecord_run, ?deleteRecord_run, ?importData_run,
    ?addPlan_run, ?updatePlan_run, ?deletePlan_run;
  repeat match goal with
         | |- context [match ?x with _ => _ end] => destruct x
         end;
  rewrite ?_saveToLocalStorage_service; simpl.

(** X4. Whether it completes or throws, [updateRecord] leaves the log at
    its length and leaves every position alone but the first one whose
    record has the payload's identifier: a second record with the same
    identifier is never updated. *)
Theorem updateRecord_frame (updatedRecord : obj) w :
  let w' := (updateRecord updatedRecord w).2 in
  let index :=
    findIndex (fun record => strict_eq (get record "Id") (get updatedRecord "Id"))
              (trainingData (service w)) in
  length (trainingData (service w')) = length (trainingData (service w)) /\
  forall j, index ≠ Some j ->
            trainingData (service w') !! j = trainingData (service w) !! j.
Proof.
  simpl. rewrite updateRecord_run.
  destruct (findIndex _ _) as [index|]; [|done].
  destruct (_ !! index); [|done].
  destruct (_enrichRecord _ _); [|done].
  rewrite _saveToLocalStorage_service. simpl.
  split; [apply length_insert|].
  intros j Hj. apply list_lookup_insert_ne. congruence.
Qed.

(** X5. The methods that write training records never touch the planned
    sessions, the roster or the acting user, and the methods that write
    planned sessions never touch the training records, the roster or the
    acting user, whether they complete or throw. *)
Theorem writes_keep_to_their_collection w :
  (forall now random record stamps newData id,
     Forall (fun w' : World =>
               plannedSessions (service w') = plannedSessions (service w) /\
               orgaData (service w') = orgaData (service w) /\
               currentUser (service w') = currentUser (service w))
       [ (addRecord now random record w).2; (updateRecord record w).2;
         (deleteRecord id w).2; (importData stamps newData w).2 ]) /\
  (forall now plan id,
     Forall (fun w' : World =>
               trainingData (service w') = trainingData (service w) /\
               orgaData (service w') = orgaData (service w) /\
               currentUser (service w') = currentUser (service w))
       [ (addPlan now plan w).2; (updatePlan plan w).2; (deletePlan id w).2 ]).
Proof.
  split; intros; repeat constructor; by run_method.
Qed.

(** X6. A record without a training date to call [replace] on is never
    written: [addRecord] throws and [updateRecord] throws or finds no
    record to update, and either way the service, the storage and the
    console are exactly as before the call. *)
Theorem undated_record_changes_nothing now random (record : obj) w :
  ¬ dated record ->
  (exists e, addRecord now random record w = (Throw e, w)) /\
  (exists outcome, updateRecord record w = (outcome, w)).
Proof.
  intros Hundated.
  assert (Hthrows : forall ds (r : obj),
            get r "Training Date" = get record "Training Date" ->
            exists e, _enrichRecord ds r = Throw e).
  { intros ds r Hsame. apply _enrichRecord_throws. intros s Hs.
    apply Hundated. exists s. congruence. }
  split.
  - rewrite addRecord_run.
    destruct (Hthrows (service w) (stamped (service w) now random record)) as [e ->];
      [unfold stamped; by rewrite !get_set_ne | eauto].
  - rewrite updateRecord_run.
    destruct (findIndex _ _) as [index|]; [|eauto].
    destruct (_ !! index) as [original|]; [|eauto].
    destruct (Hthrows (service w) (set record "Trainer" (get original "Trainer")))
      as [e ->]; [by rewrite get_set_ne | eauto].
Qed.

(** ** Persistence *)

Lemma _saveToLocalStorage_fits w :
  (forall store key text, setItem_fits store key text = true) ->
  persisted (_saveToLocalStorage w).2 /\
  console (_saveToLocalStorage w).2 = console w.
Proof.
  intros Hfits.
  unfold _saveToLocalStorage, mbind, M_bind, this, StorageService_save, persisted.
  simpl. rewrite !Hfits. simpl.
  by rewrite lookup_insert_ne, !lookup_insert_eq.
Qed.

Lemma _saveToLocalStorage_full w :
  (forall store key text, setItem_fits store key text = false) ->
  localStorage (_saveToLocalStorage w).2 = localStorage w /\
  console (_saveToLocalStorage w).2 =
    console w ++ [ "Failed to save data for key trainingData";
                   "Failed to save data for key plannedSessions" ].
Proof.
  intros Hfull.
  unfold _saveToLocalStorage, mbind, M_bind, this, StorageService_save.
  simpl. rewrite !Hfull. simpl. by rewrite <- app_assoc.
Qed.

(** X7. When storage accepts every write, each mutation that completes
    leaves storage holding the text of both collections as they then are in
    memory: adding, deleting and importing records, adding and deleting
    plans, and updating a record or a plan that is found. *)
Theorem completed_writes_are_persisted w w' :
  (forall store key text, setItem_fits store key text = true) ->
  (forall now random record,
     addRecord now random record w = (Normal tt, w') -> persisted w') /\
  (forall id, deleteRecord id w = (Normal tt, w') -> persisted w') /\
  (forall stamps newData,
     importData stamps newData w = (Normal tt, w') -> persisted w') /\
  (forall record original,
     getRecordById (service w) (get record "Id") = Some original ->
     updateRecord record w = (Normal tt, w') -> persisted w') /\
  (forall now plan, addPlan now plan w = (Normal tt, w') -> persisted w') /\
  (forall id, deletePlan id w = (Normal tt, w') -> persisted w') /\
  (forall plan original,
     getPlanById (service w) (get plan "Id") = Some original ->
     updatePlan plan w = (Normal tt, w') -> persisted w').
Proof.
  intros Hfits.
  assert (Hsave : forall w1, _saveToLocalStorage w1 = (Normal tt, w') -> persisted w').
  { intros w1 Hrun. destruct (_saveToLocalStorage_fits w1 Hfits) as [Hp _].
    by rewrite Hrun in Hp. }
  split; [|split; [|split; [|split; [|split; [|split]]]]].
  - intros now random record. rewrite addRecord_run.
    destruct (_enrichRecord _ _); [apply Hsave|discriminate].
  - intros id. rewrite deleteRecord_run. apply Hsave.
  - intros stamps newData. rewrite importData_run.
    destruct (map_from _ _ _); [apply Hsave|discriminate].
  - intros record original Hfound. rewrite updateRecord_run.
    apply find_findIndex in Hfound as (index & -> & ->).
    destruct (_enrichRecord _ _); [apply Hsave|discriminate].
  - intros now plan. rewrite addPlan_run.
    destruct (plan_month _); [apply Hsave|discriminate].
  - intros id. rewrite deletePlan_run. apply Hsave.
  - intros plan original Hfound. rewrite updatePlan_run.
    apply find_findIndex in Hfound as (index & -> & _).
    destruct (plan_month _); [apply Hsave|discriminate].
Qed.

(** X8. When storage refuses every write, [addRecord] on a record with a
    training date still completes and the record is in the log; storage
    is as it was and the console has the two failures. *)
Theorem addRecord_on_full_storage now random (record : obj) w :
  (forall store key text, setItem_fits store key text = false) ->
  dated record ->
  exists enriched w',
    addRecord now random record w = (Normal tt, w') /\
    trainingData (service w') = enriched :: trainingData (service w) /\
    localStorage w' = localStorage w /\
    console w' =
      console w ++ [ "Failed to save data for key trainingData";
                     "Failed to save data for key plannedSessions" ].
Proof.
  intros Hfull [s Hdate]. rewrite addRecord_run.
  assert (Hdate' : get (stamped (service w) now random record) "Training Date" = VStr s).
  { unfold stamped. by rewrite !get_set_ne. }
  destruct (_enrichRecord_completes (service w) _ s Hdate') as (enriched & -> & _).
  match goal with |- context [_saveToLocalStorage ?w1] =>
    destruct (_saveToLocalStorage_completes w1) as (w' & Hrun & Hservice);
    destruct (_saveToLocalStorage_full w1 Hfull) as [Hstore Hconsole] end.
  rewrite Hrun in Hstore, Hconsole. rewrite Hrun.
  exists enriched, w'. by rewrite Hservice.
Qed.

(** ** Enrichment as an invariant of the log *)

Lemma _enrichRecord_dated ds (record : obj) s :
  get record "Training Date" = VStr s ->
  let date := Date_parse (Str.replace_dashes s) in
  _enrichRecord ds record =
  Normal
    (set (set (set (set (set (set record
       "Full Name" (from_roster ds record "Full Name"))
       "Gender" (from_roster ds record "Gender"))
       "Project" (from_roster ds record "PROJET"))
       "Cost Center" (from_roster ds record "Cost center"))
       "Month" (VStr (toLocaleString_month date)))
       "Week" (VStr ("Week " +:+
                     to_string (VNum (Num.Math_ceil (getDate date / 7)%float))))).
Proof.
  intros Hdate. unfold _enrichRecord, from_roster.
  rewrite !get_set_ne by done. by rewrite Hdate.
Qed.

Lemma _enrichRecord_roster ds ds' (record : obj) :
  orgaData ds = orgaData ds' -> _enrichRecord ds record = _enrichRecord ds' record.
Proof. intros H. unfold _enrichRecord, getEmployeeById. by rewrite H. Qed.

(** X9. Enrichment is idempotent: a record that enrichment returned is
    returned unchanged when enriched again against the same roster. *)
Theorem _enrichRecord_idempotent ds (record enriched : obj) :
  _enrichRecord ds record = Normal enriched ->
  _enrichRecord ds enriched = Normal enriched.
Proof.
  intros Hrun.
  destruct (get record "Training Date") as [| | | |s|] eqn:Hdate;
    try (destruct (_enrichRecord_throws ds record) as [e He];
         [intros s Hs; congruence | congruence]).
  rewrite (_enrichRecord_dated ds record s Hdate) in Hrun.
  injection Hrun as <-.
  match goal with |- _enrichRecord _ ?e = _ => set (enriched := e) end.
  assert (Hdate' : get enriched "Training Date" = VStr s).
  { subst enriched. by rewrite !get_set_ne. }
  assert (Hroster : forall field,
            from_roster ds enriched field = from_roster ds record field).
  { intros field. unfold from_roster. subst enriched. by rewrite !get_set_ne. }
  rewrite (_enrichRecord_dated ds enriched s Hdate'). simpl.
  rewrite !Hroster. f_equal. subst enriched. unfold set.
  apply map_eq. intros k. rewrite !lookup_insert.
  repeat case_decide; congruence.
Qed.

Lemma is_enriched_roster ds ds' (r : obj) :
  orgaData ds' = orgaData ds -> is_enriched ds r -> is_enriched ds' r.
Proof. unfold is_enriched. intros H. by rewrite (_enrichRecord_roster ds' ds). Qed.

(** X10. A log of enriched records stays one: when every stored record is
    as enrichment leaves it, so is every record of the log that
    [addRecord], [updateRecord] and [deleteRecord] leave, whether they
    complete or throw. *)
Theorem writes_keep_the_log_enriched now random (record : obj) id w :
  Forall (is_enriched (service w)) (trainingData (service w)) ->
  Forall (fun w' : World => Forall (is_enriched (service w')) (trainingData (service w')))
    [ (addRecord now random record w).2; (updateRecord record w).2;
      (deleteRecord id w).2 ].
Proof.
  intros Hlog.
  assert (Hkeep : forall data,
            Forall (is_enriched (service w)) data ->
            Forall (is_enriched (service (with_trainingData w data)))
                   (trainingData (service (with_trainingData w data)))).
  { intros data Hdata. simpl. eapply Forall_impl; [exact Hdata|].
    intros r. by apply is_enriched_roster. }
  repeat constructor.
  - rewrite addRecord_run. destruct (_enrichRecord _ _) as [e|] eqn:He; [|done].
    rewrite _saveToLocalStorage_service. apply Hkeep.
    constructor; [by eapply _enrichRecord_idempotent|done].
  - rewrite updateRecord_run. destruct (findIndex _ _) as [index|]; [|done].
    destruct (_ !! index); [|done].
    destruct (_enrichRecord _ _) as [e|] eqn:He; [|done].
    rewrite _saveToLocalStorage_service. apply Hkeep.
    apply Forall_insert; [done|by eapply _enrichRecord_idempotent].
  - rewrite deleteRecord_run, _saveToLocalStorage_service. apply Hkeep.
    eapply Forall_forall. intros r Hr. rewrite Forall_forall in Hlog. apply Hlog.
    apply list_elem_of_In in Hr. apply List.filter_In in Hr as [Hr _].
    by apply list_elem_of_In.
Qed.

(** ** Importing *)

Lemma import_record_dated ds stamp (r : obj) :
  dated r -> exists e, import_record ds stamp r = Normal e /\ imported ds r e.
Proof.
  intros [s Hdate]. unfold import_record.
  match goal with |- context [_enrichRecord _ ?x] => set (prepared := x) end.
  assert (Hdate' : get prepared "Training Date" = VStr s).
  { subst prepared. destruct (negb _); by rewrite !get_set_ne. }
  destruct (_enrichRecord_completes ds prepared s Hdate')
    as (e & He & _ & _ & _ & _ & _ & _ & Hrest).
  exists e. split; [exact He|].
  assert (Hfield : forall k, k ∉ derived_fields -> get e k = get prepared k).
  { intros k Hk. unfold get. by rewrite Hrest. }
  split; [by eapply _enrichRecord_idempotent|]. split; [|split].
  - rewrite Hfield by decide_elem. subst prepared.
    destruct (negb _); rewrite ?get_set_ne by done; by rewrite get_set_eq.
  - intros Hid. rewrite Hfield by decide_elem. subst prepared.
    rewrite get_set_ne by done. rewrite Hid. simpl. by rewrite get_set_ne.
  - intros k Htrainer Hid Hderived. rewrite Hrest by done. subst prepared.
    destruct (negb _); by rewrite !lookup_set_ne.
Qed.

Lemma import_record_undated ds stamp (r : obj) :
  ¬ dated r -> exists e, import_record ds stamp r = Throw e.
Proof.
  intros Hundated. unfold import_record. apply _enrichRecord_throws.
  intros s Hs. apply Hundated. exists s. rewrite <- Hs.
  destruct (negb _); by rewrite !get_set_ne.
Qed.

Lemma map_from_import_dated ds stamps (newData : list obj) i :
  Forall dated newData ->
  exists data,
    map_from (fun i => import_record ds (stamps i)) i newData = Normal data /\
    Forall2 (imported ds) newData data.
Proof.
  intros Hall. revert i. induction Hall as [|r l Hr _ IH]; intros i; simpl.
  - exists []. by split; [|constructor].
  - destruct (import_record_dated ds (stamps i) r Hr) as (e & -> & He).
    destruct (IH (S i)) as (data & -> & Hdata).
    exists (e :: data). by split; [|constructor].
Qed.

Lemma map_from_import_undated ds stamps (newData : list obj) i :
  Exists (fun r => ¬ dated r) newData ->
  exists e, map_from (fun i => import_record ds (stamps i)) i newData = Throw e.
Proof.
  intros Hex. revert i. induction Hex as [r l Hr|r l _ IH]; intros i; simpl.
  - destruct (import_record_undated ds (stamps i) r Hr) as (e & ->). eauto.
  - destruct (import_record _ _ r); [|eauto].
    destruct (IH (S i)) as (e & ->). eauto.
Qed.

(** X11. [importData] is all or nothing. When every record of the file has
    a training date it completes, and the log is then the file's records,
    one for one and in order, each with the acting user as trainer, its own
    identifier when it has one, and enriched; the records stored before are
    gone. When some record has no training date it throws, and the service,
    the storage and the console are exactly as before. *)
Theorem importData_all_or_nothing stamps (newData : list obj) w :
  (Forall dated newData ->
   exists w',
     importData stamps newData w = (Normal tt, w') /\
     Forall2 (imported (service w)) newData (trainingData (service w'))) /\
  (Exists (fun r => ¬ dated r) newData ->
   exists e, importData stamps newData w = (Throw e, w)).
Proof.
  split; intros Hdata; rewrite importData_run.
  - destruct (map_from_import_dated (service w) stamps newData 0 Hdata)
      as (data & -> & Himported).
    match goal with |- context [_saveToLocalStorage ?w1] =>
      destruct (_saveToLocalStorage_completes w1) as (w' & -> & Hservice) end.
    exists w'. by rewrite Hservice.
  - destruct (map_from_import_undated (service w) stamps newData 0 Hdata) as (e & ->).
    eauto.
Qed.

(** ** Planned sessions *)

Lemma find_app_singleton {A} (p : A -> bool) (l : list A) x :
  p x = true ->
  List.find p (l ++ [x]) = Some (default x (List.find p l)).
Proof.
  intros Hx. induction l as [|a l IH]; simpl; [by rewrite Hx|].
  by destruct (p a).
Qed.

(** X12. For every plan with a planned date, [addPlan] completes and puts
    one plan at the end of the planned sessions: the payload with the clock
    as identifier and the month name of its date. A lookup of that
    identifier returns the plan added only when no earlier plan has the
    same identifier; otherwise it returns the earlier plan. *)
Theorem addPlan_appends now (plan : obj) s w :
  get plan "plannedDate" = VStr s ->
  exists stored w',
    addPlan now plan w = (Normal tt, w') /\
    plannedSessions (service w') = plannedSessions (service w) ++ [stored] /\
    get stored "Id" = VStr (to_string (VNum now)) /\
    get stored "Month" =
      VStr (toLocaleString_month (Date_parse (Str.replace_dashes s))) /\
    (forall k, k ≠ "Id" -> k ≠ "Month" -> stored !! k = plan !! k) /\
    getPlanById (service w') (get stored "Id") =
      Some (default stored (getPlanById (service w) (get stored "Id"))).
Proof.
  intros Hdate. rewrite addPlan_run. unfold plan_month.
  rewrite get_set_ne by done. rewrite Hdate.
  match goal with |- context [_saveToLocalStorage ?w1] =>
    destruct (_saveToLocalStorage_completes w1) as (w' & -> & Hservice) end.
  eexists _, w'. split; [reflexivity|]. unfold getPlanById. rewrite Hservice. simpl.
  split; [reflexivity|].
  assert (Hid : forall v, get (set (set plan "Id" (VStr (to_string (VNum now))))
                                   "Month" v) "Id" = VStr (to_string (VNum now))).
  { intros v. by rewrite get_set_ne, get_set_eq. }
  split; [apply Hid|]. split; [by rewrite get_set_eq|]. split.
  - intros k Hk Hm. by rewrite !lookup_set_ne.
  - rewrite Hid. apply find_app_singleton. rewrite Hid. simpl. apply String.eqb_refl.
Qed.

(** X13. For every stored plan and every payload with its identifier and a
    planned date, [updatePlan] completes and the plan then held under that
    identifier is the payload with the month name of its date: every other
    field, the trainer included, is the payload's, and nothing of the plan
    stored before is preserved. *)
Theorem updatePlan_replaces (updatedPlan original : obj) s w :
  getPlanById (service w) (get updatedPlan "Id") = Some original ->
  get updatedPlan "plannedDate" = VStr s ->
  exists w',
    updatePlan updatedPlan w = (Normal tt, w') /\
    getPlanById (service w') (get updatedPlan "Id") =
      Some (set updatedPlan "Month"
              (VStr (toLocaleString_month (Date_parse (Str.replace_dashes s))))) /\
    length (plannedSessions (service w')) = length (plannedSessions (service w)).
Proof.
  intros Hfound Hdate. unfold getPlanById in Hfound.
  pose proof Hfound as Hmatch. apply find_some in Hmatch as [_ Hmatch].
  apply find_findIndex in Hfound as (index & Hindex & Hlookup).
  rewrite updatePlan_run, Hindex. unfold plan_month. rewrite Hdate.
  match goal with |- context [_saveToLocalStorage ?w1] =>
    destruct (_saveToLocalStorage_completes w1) as (w' & -> & Hservice) end.
  exists w'. split; [done|]. unfold getPlanById. rewrite Hservice. simpl.
  split; [|apply length_insert].
  apply find_insert_findIndex; [exact Hindex|].
  rewrite get_set_ne by done. by apply strict_eq_refl_r in Hmatch.
Qed.

(** X14. [updatePlan] changes nothing when no stored plan has the
    payload's identifier, and nothing either when the payload has no
    planned date to call [replace] on: the service, the storage and the
    console are exactly as before. *)
Theorem updatePlan_changes_nothing (updatedPlan : obj) w :
  Forall (fun p => strict_eq (get p "Id") (get updatedPlan "Id") = false)
         (plannedSessions (service w)) \/
  (forall s, get updatedPlan "plannedDate" ≠ VStr s) ->
  exists outcome, updatePlan updatedPlan w = (outcome, w).
Proof.
  intros Hcase. rewrite updatePlan_run. destruct Hcase as [Hnone|Hundated].
  - rewrite findIndex_none by done. eauto.
  - destruct (findIndex _ _); [|eauto]. unfold plan_month.
    destruct (get updatedPlan "plannedDate") eqn:Hdate; eauto.
    by destruct (Hundated s).
Qed.

(** X15. [deletePlan] completes for every identifier. Afterwards a lookup
    of that identifier finds nothing, and the planned sessions are those of
    before without the plans of that identifier: every other plan stays, as
    many times as it was there and in its place among the others. *)
Theorem deletePlan_removes id w :
  exists w',
    deletePlan id w = (Normal tt, w') /\
    getPlanById (service w') id = None /\
    plannedSessions (service w') =
      List.filter (fun p => negb (strict_eq (get p "Id") id))
                  (plannedSessions (service w)) /\
    (forall p, p ∈ plannedSessions (service w') <->
               p ∈ plannedSessions (service w) /\ strict_eq (get p "Id") id = false) /\
    sublist (plannedSessions (service w')) (plannedSessions (service w)).
Proof.
  rewrite deletePlan_run.
  match goal with |- context [_saveToLocalStorage ?w1] =>
    destruct (_saveToLocalStorage_completes w1) as (w' & -> & Hservice) end.
  exists w'. split; [done|]. unfold getPlanById. rewrite Hservice. simpl.
  split; [apply find_filter_negb|]. split; [done|].
  split; [|apply filter_sublist].
  intros r. rewrite !list_elem_of_In, List.filter_In, negb_true_iff. done.
Qed.

End Store.

(** * The calendar, the validators and the lookup beyond the claims *)

Section Checks.
Context {P : Platform}.

(** X16. A fiscal year is the twelve months from July to June: a date has
    the label "FY Y" exactly when it lies in July to December of the
    calendar year Y or in January to June of the year Y + 1. Every date
    has one label, and two years never share a label. *)
Theorem fiscal_year_spans_july_to_june (y m d Y : Z) :
  getFiscalYear (DateObj (LocalDate y m d)) = "FY " +:+ pretty Y <->
  (y = Y /\ 6 <= m) \/ (y = Y + 1 /\ m <= 5).
Proof.
  unfold getFiscalYear. simpl. rewrite Z.geb_leb.
  destruct (Z.leb_spec 6 m); split.
  - intros H0. apply (inj (String.app "FY ")), (inj pretty) in H0. lia.
  - intros [[-> _]|[_ ?]]; [done|lia].
  - intros H0. apply (inj (String.app "FY ")), (inj pretty) in H0. lia.
  - intros [[_ ?]|[-> _]]; [lia|]. do 2 f_equal. lia.
Qed.

(** ** Validators *)

Lemma positive_is_counted (x : float) :
  (0 <? x)%float = true -> Num.falsy x = false.
Proof.
  unfold Num.falsy, PrimFloat.is_nan, PrimFloat.is_zero.
  rewrite FloatAxioms.ltb_spec, !FloatAxioms.eqb_spec.
  change (Prim2SF 0) with (S754_zero false).
  change (Prim2SF PrimFloat.zero) with (S754_zero false).
  unfold SFltb, SFeqb.
  destruct (Prim2SF x) as [? | [] | | [] m e]; simpl; try discriminate; intros _;
    by rewrite ?Z.compare_refl, ?Pos.compare_cont_refl.
Qed.

(** X17. A record passes [validateTrainingRecord] exactly when its date,
    trainee and type are truthy, its hours are a positive number, and a
    Refreshment names its refreshment type. The hours of such a record are
    positive and finite, and the aggregations count them as they are: the
    fallback to zero is never taken. *)
Theorem validateTrainingRecord_accepts (record : obj) :
  (validateTrainingRecord record = [] <->
   truthy (get record "Training Date") = true /\
   truthy (get record "Trainee's ID Number") = true /\
   truthy (get record "Training Type") = true /\
   isPositiveNumber (get record "Number of Training Hours") = true /\
   (is_type record "Training Type" "Refreshment" = true ->
    truthy (get record "Refreshment Type") = true)) /\
  (validateTrainingRecord record = [] ->
   hours_of record = parseFloat (get record "Number of Training Hours") /\
   (0 <? hours_of record)%float = true /\
   PrimFloat.is_finite (hours_of record) = true).
Proof.
  assert (Hiff : validateTrainingRecord record = [] <->
   truthy (get record "Training Date") = true /\
   truthy (get record "Trainee's ID Number") = true /\
   truthy (get record "Training Type") = true /\
   isPositiveNumber (get record "Number of Training Hours") = true /\
   (is_type record "Training Type" "Refreshment" = true ->
    truthy (get record "Refreshment Type") = true)).
  { unfold validateTrainingRecord.
    destruct (truthy (get record "Training Date")),
      (truthy (get record "Trainee's ID Number")),
      (truthy (get record "Training Type")),
      (isPositiveNumber (get record "Number of Training Hours")),
      (is_type record "Training Type" "Refreshment"),
      (truthy (get record "Refreshment Type")); simpl;
      split; try discriminate; try tauto; intuition discriminate. }
  split; [exact Hiff|].
  intros Hvalid. apply Hiff in Hvalid as (_ & _ & _ & Hhours & _).
  unfold isPositiveNumber in Hhours.
  apply andb_prop in Hhours as [Hhours Hpos].
  apply andb_prop in Hhours as [_ Hfinite].
  unfold hours_of. rewrite (positive_is_counted _ Hpos). done.
Qed.

(** ** The roster lookup and whitespace *)

Lemma string_app_cons a (s t : string) : String a s +:+ t = String a (s +:+ t).
Proof. reflexivity. Qed.

Lemma string_app_nil_r (s : string) : s +:+ "" = s.
Proof. induction s as [|a s IH]; [done|]. by rewrite string_app_cons, IH. Qed.

Lemma string_app_assoc (s t u : string) : (s +:+ t) +:+ u = s +:+ (t +:+ u).
Proof. induction s as [|a s IH]; [done|]. by rewrite !string_app_cons, IH. Qed.

Lemma string_rev_app_spec (s t : string) :
  String.rev_app s t = String.rev s +:+ t.
Proof.
  unfold String.rev. revert t. induction s as [|a s IH]; intros t; simpl; [done|].
  rewrite IH, (IH (String a "")), string_app_assoc. done.
Qed.

Lemma string_rev_cons a (s : string) :
  String.rev (String a s) = String.rev s +:+ String a "".
Proof. unfold String.rev at 1. simpl. apply string_rev_app_spec. Qed.

Lemma string_rev_append (s t : string) :
  String.rev (s +:+ t) = String.rev t +:+ String.rev s.
Proof.
  induction s as [|a s IH].
  - by rewrite string_app_nil_r.
  - by rewrite string_app_cons, !string_rev_cons, IH, string_app_assoc.
Qed.

Lemma string_rev_involutive (s : string) : String.rev (String.rev s) = s.
Proof.
  induction s as [|a s IH]; [done|].
  by rewrite string_rev_cons, string_rev_append, IH.
Qed.

Lemma trimStart_clean (s : string) : starts_clean (Str.trimStart s).
Proof.
  induction s as [|c s IH]; simpl; [done|].
  by destruct (Str.is_white c) eqn:Hc.
Qed.

Lemma trimStart_of_clean (s : string) : starts_clean s -> Str.trimStart s = s.
Proof. destruct s as [|c s]; simpl; [done|]. by intros ->. Qed.

Lemma trimStart_suffix (s : string) : exists p, s = p +:+ Str.trimStart s.
Proof.
  induction s as [|c s [p Hp]]; simpl; [by exists ""|].
  destruct (Str.is_white c); [|by exists ""].
  exists (String c p). by rewrite string_app_cons, <- Hp.
Qed.

Lemma starts_clean_prefix (s t : string) :
  starts_clean (s +:+ t) -> starts_clean s.
Proof. by destruct s. Qed.

(** [trim] leaves a string that neither begins nor ends with whitespace,
    and leaves such a string alone. *)
Lemma trim_clean (s : string) :
  starts_clean (Str.trim s) /\ starts_clean (String.rev (Str.trim s)).
Proof.
  unfold Str.trim. rewrite string_rev_involutive. split; [|apply trimStart_clean].
  destruct (trimStart_suffix (String.rev (Str.trimStart s))) as [p Hp].
  apply (f_equal String.rev) in Hp.
  rewrite string_rev_involutive, string_rev_append in Hp.
  pose proof (trimStart_clean s) as Hclean. rewrite Hp in Hclean.
  by apply starts_clean_prefix in Hclean.
Qed.

Lemma trim_idempotent (s : string) : Str.trim (Str.trim s) = Str.trim s.
Proof.
  destruct (trim_clean s) as [Hstart Hend].
  unfold Str.trim at 1.
  by rewrite (trimStart_of_clean _ Hstart), (trimStart_of_clean _ Hend),
    string_rev_involutive.
Qed.

(** X18. The roster lookup does not see the whitespace around an
    identifier: a string identifier that is not all whitespace is looked up
    to the same result as the identifier trimmed. *)
Theorem getEmployeeById_ignores_padding ds (s : string) :
  Str.trim s ≠ "" ->
  getEmployeeById ds (VStr s) = getEmployeeById ds (VStr (Str.trim s)).
Proof.
  intros Hsome. unfold getEmployeeById. simpl.
  rewrite trim_idempotent.
  destruct (String.eqb_spec (Str.trim s) "") as [|_]; [done|].
  destruct (String.eqb_spec s "") as [->|_]; [done|]. done.
Qed.

Lemma trimStart_blank (s : string) :
  Str.trimStart s = "" <-> blank s = true.
Proof.
  induction s as [|c s IH]; simpl; [done|].
  destruct (Str.is_white c); simpl; [exact IH|]. split; discriminate.
Qed.

Lemma blank_trimStart (s : string) : blank (Str.trimStart s) = blank s.
Proof.
  induction s as [|c s IH]; simpl; [done|].
  destruct (Str.is_white c) eqn:Hc; simpl; [exact IH|]. by rewrite Hc.
Qed.

Lemma blank_app (s t : string) : blank (s +:+ t) = blank s && blank t.
Proof.
  induction s as [|c s IH]; [done|].
  rewrite string_app_cons. simpl. by rewrite IH, andb_assoc.
Qed.

Lemma blank_rev (s : string) : blank (String.rev s) = blank s.
Proof.
  induction s as [|c s IH]; [done|].
  rewrite string_rev_cons, blank_app, IH. simpl.
  rewrite andb_true_r. apply andb_comm.
Qed.

Lemma trim_blank (s : string) : Str.trim s = "" <-> blank s = true.
Proof.
  unfold Str.trim. rewrite <- blank_trimStart, <- blank_rev, <- trimStart_blank.
  split; [|by intros ->].
  intros Hrev. by rewrite <- (string_rev_involutive (Str.trimStart _)), Hrev.
Qed.

(** X19. [isNotEmpty] accepts exactly the strings that have a character
    other than whitespace. The roster lookup never answers such an
    identifier with null: it searches the roster for it. *)
Theorem isNotEmpty_sees_a_character ds (v : value) :
  isNotEmpty v = match v with VStr s => negb (blank s) | _ => false end /\
  (isNotEmpty v = true -> getEmployeeById ds v ≠ Null).
Proof.
  assert (Hblank : forall s, negb (String.eqb (Str.trim s) "") = negb (blank s)).
  { intros s. f_equal. pose proof (trim_blank s) as Htrim.
    destruct (String.eqb_spec (Str.trim s) ""), (blank s); naive_solver. }
  split; [destruct v; simpl; auto|].
  destruct v as [| | | |s|]; simpl; try discriminate.
  rewrite Hblank. unfold getEmployeeById.
  destruct s as [|c s]; [discriminate|]. intros _. simpl.
  by destruct (List.find _ _).
Qed.

End Checks.

(** * The views beyond the claims *)

Section Views.
Context {P : Platform}.

(** ** Hours by bucket and sector *)

Lemma hoursByGender_step_lookup bucket acc r k :
  hoursByGender_step bucket acc r !! k =
  if with_key bucket k r
  then Some (gender_bump r
               (default {| Male := 0; Female := 0; label := k |} (acc !! k)))
  else acc !! k.
Proof.
  unfold hoursByGender_step, with_key, gender_bump. fold (bucket_key bucket r).
  generalize (bucket_key_plain bucket r).
  generalize (bucket_key bucket r). intros key Hplain. unfold read.
  destruct (String.eqb_spec key k) as [->|Hne].
  - destruct (acc !! k) as [bar|] eqn:Hbar; simpl.
    + rewrite Hbar.
      destruct (is_type r "Gender" "Male"), (is_type r "Gender" "Female");
        by rewrite ?lookup_insert_eq.
    + rewrite Hplain, lookup_insert_eq.
      destruct (is_type r "Gender" "Male"), (is_type r "Gender" "Female");
        by rewrite ?lookup_insert_eq.
  - destruct (acc !! key) as [bar|] eqn:Hbar.
    + rewrite Hbar.
      destruct (is_type r "Gender" "Male"), (is_type r "Gender" "Female");
        by rewrite ?lookup_insert_ne.
    + rewrite Hplain, lookup_insert_eq.
      destruct (is_type r "Gender" "Male"), (is_type r "Gender" "Female");
        by rewrite !lookup_insert_ne.
Qed.

Lemma hoursByType_step_lookup bucket acc r k :
  hoursByType_step bucket acc r !! k =
  if with_key bucket k r
  then Some (type_bump r
               (default {| Qualification := 0; Refreshment := 0; type_label := k |}
                        (acc !! k)))
  else acc !! k.
Proof.
  unfold hoursByType_step, with_key, type_bump. fold (bucket_key bucket r).
  generalize (bucket_key_plain bucket r).
  generalize (bucket_key bucket r). intros key Hplain. unfold read.
  destruct (String.eqb_spec key k) as [->|Hne].
  - destruct (acc !! k) as [bar|] eqn:Hbar; simpl.
    + rewrite Hbar.
      destruct (is_type r "Training Type" "Qualification"),
        (is_type r "Training Type" "Refreshment"); by rewrite ?lookup_insert_eq.
    + rewrite Hplain, lookup_insert_eq.
      destruct (is_type r "Training Type" "Qualification"),
        (is_type r "Training Type" "Refreshment"); by rewrite ?lookup_insert_eq.
  - destruct (acc !! key) as [bar|] eqn:Hbar.
    + rewrite Hbar.
      destruct (is_type r "Training Type" "Qualification"),
        (is_type r "Training Type" "Refreshment"); by rewrite ?lookup_insert_ne.
    + rewrite Hplain, lookup_insert_eq.
      destruct (is_type r "Training Type" "Qualification"),
        (is_type r "Training Type" "Refreshment"); by rewrite !lookup_insert_ne.
Qed.

(** A fold that, record by record, bumps the entry of the record's key. *)
Lemma keyed_fold_lookup {B} (step : gmap string B -> obj -> gmap string B)
    (bump : obj -> B -> B) (blank : B) (select : obj -> bool) (k : string) :
  (forall acc r,
     step acc r !! k =
     if select r then Some (bump r (default blank (acc !! k))) else acc !! k) ->
  forall records acc,
    foldl step acc records !! k =
    match List.filter select records with
    | [] => acc !! k
    | subset =>
        Some (foldl (fun b r => bump r b) (default blank (acc !! k)) subset)
    end.
Proof.
  intros Hstep records. induction records as [|r records IH]; intros acc; simpl;
    [done|].
  rewrite IH, Hstep. destruct (select r); simpl; [|done].
  by destruct (List.filter select records).
Qed.

Lemma foldl_gender_bump subset bar :
  foldl (fun b r => gender_bump r b) bar subset =
  {| Male := foldl (fun total r => (total + hours_of r)%float) (Male bar)
               (List.filter (fun r => is_type r "Gender" "Male") subset);
     Female := foldl (fun total r => (total + hours_of r)%float) (Female bar)
                 (List.filter (fun r => is_type r "Gender" "Female") subset);
     label := label bar |}.
Proof.
  revert bar. induction subset as [|r subset IH]; intros bar; simpl;
    [by destruct bar|].
  rewrite IH. unfold gender_bump, is_type.
  destruct (get r "Gender") as [| | | |g|]; simpl; try done.
  destruct (String.eqb_spec g "Male") as [->|?]; simpl; [done|].
  by destruct (String.eqb g "Female").
Qed.

Lemma foldl_type_bump subset bar :
  foldl (fun b r => type_bump r b) bar subset =
  {| Qualification :=
       foldl (fun total r => (total + hours_of r)%float) (Qualification bar)
         (List.filter (fun r => is_type r "Training Type" "Qualification") subset);
     Refreshment :=
       foldl (fun total r => (total + hours_of r)%float) (Refreshment bar)
         (List.filter (fun r => is_type r "Training Type" "Refreshment") subset);
     type_label := type_label bar |}.
Proof.
  revert bar. induction subset as [|r subset IH]; intros bar; simpl;
    [by destruct bar|].
  rewrite IH. unfold type_bump, is_type.
  destruct (get r "Training Type") as [| | | |g|]; simpl; try done.
  destruct (String.eqb_spec g "Qualification") as [->|?]; simpl; [done|].
  by destruct (String.eqb g "Refreshment").
Qed.

(** X20. In the weekly and in the monthly chart of hours by gender, a key
    has a bar exactly when some record has that key. The bar is labelled
    with the key; its Male and Female figures are the hours of the Male
    and of the Female records of the key, summed in the order of the log.
    A record of another gender opens the bar and adds to neither figure. *)
Theorem hoursByGender_bars (records : list obj) (k : string) :
  let bar bucket :=
    match List.filter (with_key bucket k) records with
    | [] => None
    | subset =>
        Some {| Male := hours_where "Gender" "Male" subset;
                Female := hours_where "Gender" "Female" subset;
                label := k |}
    end in
  weeklyHoursByGender records !! k = bar "Week" /\
  monthlyHoursByGender records !! k = bar "Month".
Proof.
  assert (Hbar : forall bucket,
    foldl (hoursByGender_step bucket) ∅ records !! k =
    match List.filter (with_key bucket k) records with
    | [] => None
    | subset =>
        Some {| Male := hours_where "Gender" "Male" subset;
                Female := hours_where "Gender" "Female" subset;
                label := k |}
    end).
  { intros bucket.
    rewrite (keyed_fold_lookup _ gender_bump
               {| Male := 0; Female := 0; label := k |} (with_key bucket k) k)
      by (intros; apply hoursByGender_step_lookup).
    rewrite lookup_empty. simpl.
    destruct (List.filter _ records) as [|r0 subset]; [done|].
    f_equal. exact (foldl_gender_bump (r0 :: subset) _). }
  split; apply Hbar.
Qed.

(** X21. The charts of hours by training type have the bars of the charts
    by gender: a key has a bar exactly when some record has that key,
    whatever the types and genders are, and the Qualification and
    Refreshment figures of the bar are the hours of the Qualification and
    of the Refreshment records of the key. *)
Theorem hoursByType_bars (records : list obj) (k : string) :
  let bar bucket :=
    match List.filter (with_key bucket k) records with
    | [] => None
    | subset =>
        Some {| Qualification := hours_where "Training Type" "Qualification" subset;
                Refreshment := hours_where "Training Type" "Refreshment" subset;
                type_label := k |}
    end in
  (weeklyHoursByType records !! k = bar "Week" /\
   monthlyHoursByType records !! k = bar "Month") /\
  dom (weeklyHoursByType records) = dom (weeklyHoursByGender records) /\
  dom (monthlyHoursByType records) = dom (monthlyHoursByGender records).
Proof.
  assert (Htype : forall bucket k,
    foldl (hoursByType_step bucket) ∅ records !! k =
    match List.filter (with_key bucket k) records with
    | [] => None
    | subset =>
        Some {| Qualification := hours_where "Training Type" "Qualification" subset;
                Refreshment := hours_where "Training Type" "Refreshment" subset;
                type_label := k |}
    end).
  { intros bucket k'.
    rewrite (keyed_fold_lookup _ type_bump
               {| Qualification := 0; Refreshment := 0; type_label := k' |}
               (with_key bucket k') k')
      by (intros; apply hoursByType_step_lookup).
    rewrite lookup_empty. simpl.
    destruct (List.filter _ records) as [|r0 subset]; [done|].
    f_equal. exact (foldl_type_bump (r0 :: subset) _). }
  assert (Hgender : forall bucket k,
    is_Some (foldl (hoursByGender_step bucket) ∅ records !! k) <->
    List.filter (with_key bucket k) records ≠ []).
  { intros bucket k'.
    rewrite (keyed_fold_lookup _ gender_bump
               {| Male := 0; Female := 0; label := k' |} (with_key bucket k') k')
      by (intros; apply hoursByGender_step_lookup).
    rewrite lookup_empty. destruct (List.filter _ records); simpl.
    - split; [by intros [? ?]|done].
    - split; [done|eauto]. }
  assert (Hdom : forall bucket,
    dom (foldl (hoursByType_step bucket) ∅ records) =
    dom (foldl (hoursByGender_step bucket) ∅ records)).
  { intros bucket. apply set_eq. intros k'.
    rewrite !elem_of_dom, Hgender, Htype.
    destruct (List.filter _ records); simpl.
    - split; [by intros [? ?]|done].
    - split; [done|eauto]. }
  split; [split; apply Htype|]. split; apply Hdom.
Qed.

(** ** Sessions by gender *)

Lemma sessionsByGender_step_lookup acc r g :
  sessionsByGender_step acc r !! g =
  if bool_decide (g ∈ ["Male"; "Female"]) && is_type r "Gender" g
  then Some (default 0%nat (acc !! g) + 1)%nat else acc !! g.
Proof.
  unfold sessionsByGender_step, is_type.
  destruct (get r "Gender") as [| | | |s|] eqn:Hgender; simpl;
    rewrite ?andb_false_r; try done.
  destruct (bool_decide_reflect (g ∈ ["Male"; "Female"])) as [Hg|Hg]; simpl.
  - destruct (String.eqb_spec s g) as [->|Hne].
    + replace (String.eqb g "Male" || String.eqb g "Female") with true.
      * by rewrite lookup_insert_eq.
      * rewrite !elem_of_cons, elem_of_nil in Hg.
        by destruct Hg as [->|[->|[]]].
    + destruct (String.eqb s "Male" || String.eqb s "Female");
        by rewrite ?lookup_insert_ne.
  - destruct (String.eqb s "Male" || String.eqb s "Female") eqn:Hs; [|done].
    rewrite lookup_insert_ne; [done|]. intros ->. apply Hg.
    apply orb_true_iff in Hs as [Hs|Hs]; apply String.eqb_eq in Hs;
      subst g; decide_elem.
Qed.

(** X22. The chart of sessions by gender counts the records whose gender
    is "Male" and those whose gender is "Female", and nothing else: a
    gender without a session has no entry, and no other key ever has one. *)
Theorem sessionsByGender_counts (records : list obj) (g : string) :
  sessionsByGender records !! g =
  let n := length (List.filter (fun r => is_type r "Gender" g) records) in
  if bool_decide (g ∈ ["Male"; "Female"]) && (0 <? n)%nat then Some n else None.
Proof.
  unfold sessionsByGender.
  assert (Hfold : forall acc,
    foldl sessionsByGender_step acc records !! g =
    let n := length (List.filter (fun r => is_type r "Gender" g) records) in
    if bool_decide (g ∈ ["Male"; "Female"]) && (0 <? n)%nat
    then Some (default 0%nat (acc !! g) + n)%nat else acc !! g).
  { induction records as [|r records IH]; intros acc; simpl.
    - by rewrite andb_false_r.
    - rewrite IH, sessionsByGender_step_lookup. clear IH.
      destruct (bool_decide (g ∈ ["Male"; "Female"])); simpl; [|done].
      destruct (is_type r "Gender" g); simpl; [|done].
      destruct (length _); simpl; f_equal; lia. }
  rewrite Hfold, lookup_empty. simpl. by destruct (_ && _).
Qed.

(** ** Sessions by trainer *)

Lemma performance_step_insert acc r :
  performance_step acc r =
  if inherited (trainer_of r) && bool_decide (acc !! trainer_of r = None) then acc
  else
    let data := default no_sessions (acc !! trainer_of r) in
    <[trainer_of r := {| hours := (hours data + hours_of r)%float;
                         sessions := (sessions data + 1)%nat |}]> acc.
Proof.
  unfold performance_step, read.
  destruct (acc !! trainer_of r) as [data|] eqn:Hdata.
  - rewrite Hdata, bool_decide_eq_false_2, andb_false_r by done. done.
  - rewrite bool_decide_eq_true_2, andb_true_r by done.
    destruct (inherited (trainer_of r)).
    + by rewrite Hdata.
    + rewrite lookup_insert_eq. simpl. by rewrite insert_insert_eq.
Qed.

Lemma total_sessions_insert table trainer data :
  (total_sessions (<[trainer := data]> table) +
   sessions (default no_sessions (table !! trainer)))%nat =
  (sessions data + total_sessions table)%nat.
Proof.
  unfold total_sessions.
  destruct (table !! trainer) as [old|] eqn:Hold; simpl.
  - rewrite <- (insert_delete_eq table).
    rewrite map_fold_insert_L; [|intros; lia|apply lookup_delete_eq].
    rewrite (map_fold_delete_L _ _ trainer old table); [lia|intros; lia|done].
  - rewrite map_fold_insert_L; [lia|intros; lia|done].
Qed.

Lemma performance_step_plain acc r :
  plain_table acc -> plain_table (performance_step acc r).
Proof.
  intros Hplain k Hk. destruct (decide (trainer_of r = k)) as [<-|Hne].
  - apply performance_step_inherited; auto.
  - rewrite performance_step_other by done. auto.
Qed.

Lemma performance_fold_total records acc :
  plain_table acc ->
  total_sessions (foldl performance_step acc records) =
  (total_sessions acc +
   length (List.filter (fun r => negb (inherited (trainer_of r))) records))%nat.
Proof.
  revert acc. induction records as [|r records IH]; intros acc Hplain; simpl;
    [lia|].
  rewrite IH by by apply performance_step_plain.
  rewrite performance_step_insert.
  destruct (inherited (trainer_of r)) eqn:Hinh; simpl.
  - rewrite bool_decide_eq_true_2 by auto. done.
  - pose proof (total_sessions_insert acc (trainer_of r)
      {| hours := (hours (default no_sessions (acc !! trainer_of r)) + hours_of r)%float;
         sessions := (sessions (default no_sessions (acc !! trainer_of r)) + 1)%nat |})
      as Htotal.
    simpl in Htotal. lia.
Qed.

(** X23. The table of trainers counts every session once: over all its
    entries, the sessions add up to the number of records, those left
    aside whose trainer bears the name of a member of [Object.prototype],
    which get no entry. *)
Theorem calculatePerformance_counts_each_session (records : list obj) :
  total_sessions (calculatePerformance records) =
  length (List.filter (fun r => negb (inherited (trainer_of r))) records) /\
  (Forall (fun r => inherited (trainer_of r) = false) records ->
   total_sessions (calculatePerformance records) = length records).
Proof.
  assert (Htotal : total_sessions (calculatePerformance records) =
    length (List.filter (fun r => negb (inherited (trainer_of r))) records)).
  { unfold calculatePerformance. rewrite performance_fold_total.
    - unfold total_sessions. by rewrite map_fold_empty.
    - intros k _. apply lookup_empty. }
  split; [done|]. intros Hall. rewrite Htotal. f_equal. clear Htotal.
  induction Hall as [|r l Hr _ IH]; simpl; [done|]. rewrite Hr. simpl.
  by rewrite IH.
Qed.

(** ** The yearly tables *)

Lemma calculateMonthlyData_qual_view yearlyRecords yearlyPlannedSessions
    monthlyData month :
  calculateMonthlyData yearlyRecords yearlyPlannedSessions = Normal monthlyData ->
  month ∈ FISCAL_MONTHS ->
  let rows := List.filter (qualified_in month) yearlyRecords in
  exists data,
    monthlyData !! month = Some data /\
    operatorsQual data =
      Set_of ((fun r => get r "Trainee's ID Number") <$> rows) /\
    qualifRealised data = length rows.
Proof.
  intros Hrun Hmonth rows. unfold calculateMonthlyData in Hrun.
  destruct (forEach plan_step _ _) as [md0|] eqn:Hplans; [|discriminate].
  simpl in Hrun.
  pose proof (records_view _ _ _ month Hrun) as Hv.
  rewrite (plans_view _ _ _ month Hplans), initial_monthlyData_view in Hv by done.
  simpl in Hv. fold rows in Hv. rewrite foldl_qual_bump in Hv. simpl in Hv.
  unfold qual_view in Hv.
  destruct (monthlyData !! month) as [data|] eqn:Hdata; [|discriminate].
  injection Hv as Hops Hcount. by exists data.
Qed.

Lemma map_from_total {A B} (f : nat -> A -> completion B) (g : A -> B) l i :
  Forall (fun x => forall j, f j x = Normal (g x)) l ->
  map_from f i l = Normal (g <$> l).
Proof.
  intros Hall. revert i. induction Hall as [|x l Hx _ IH]; intros i; simpl;
    [done|].
  by rewrite Hx, IH.
Qed.

(** Counting by key: over keys without repetition, the counts per key add
    up to the count of the rows whose key is one of them. *)
Lemma counts_by_key {A} (key : A -> string) (q : A -> bool) (rows : list A) keys :
  NoDup keys ->
  sum_list ((fun k =>
               length (List.filter (fun r => String.eqb (key r) k && q r) rows))
            <$> keys) =
  length (List.filter (fun r => q r && bool_decide (key r ∈ keys)) rows).
Proof.
  induction 1 as [|k keys Hk _ IH].
  - simpl. induction rows as [|r rows IHr]; simpl; [done|].
    by rewrite andb_false_r.
  - rewrite fmap_cons.
    match goal with
    | |- context [sum_list (?x :: ?l)] =>
        change (sum_list (x :: l)) with (x + sum_list l)%nat
    end.
    rewrite IH. clear IH.
    induction rows as [|r rows IHr]; simpl; [done|].
    destruct (q r); simpl; rewrite ?andb_false_r; [|done].
    destruct (String.eqb_spec (key r) k) as [->|Hne]; simpl.
    + rewrite (bool_decide_eq_false_2 (k ∈ keys)) by done.
      rewrite (bool_decide_eq_true_2 (k ∈ k :: keys)) by left. simpl. lia.
    + rewrite (bool_decide_ext (key r ∈ k :: keys) (key r ∈ keys)).
      * destruct (bool_decide (key r ∈ keys)); simpl; lia.
      * rewrite elem_of_cons. naive_solver.
Qed.

(** X24. The "Realised" column of the Qualification table has one row for
    each fiscal month, in the order of the fiscal year. Its rows add up
    to the total row but for the Qualification records whose month is no
    fiscal month: those are in the total and in no row. *)
Theorem realised_rows_against_total
    (yearlyRecords yearlyPlannedSessions : list obj) monthlyData :
  calculateMonthlyData yearlyRecords yearlyPlannedSessions = Normal monthlyData ->
  exists rows,
    qualifRealised_rows monthlyData = Normal rows /\
    rows.*1 = FISCAL_MONTHS /\
    (sum_list rows.*2 + length (List.filter off_calendar yearlyRecords))%nat =
    qualifRealised_total yearlyRecords.
Proof.
  intros Hrun.
  set (count := fun month =>
    length (List.filter (qualified_in month) yearlyRecords)).
  exists ((fun month => (month, count month)) <$> FISCAL_MONTHS).
  split; [|split].
  - apply map_from_total. apply Forall_forall. intros month Hmonth _.
    destruct (calculateMonthlyData_qual_view _ _ _ _ Hrun Hmonth)
      as (data & -> & _ & ->). done.
  - rewrite <- list_fmap_compose. apply list_fmap_id.
  - assert (Hsum :
      sum_list ((fun month => (month, count month)) <$> FISCAL_MONTHS).*2 =
      length (List.filter
                (fun r => is_type r "Training Type" "Qualification" &&
                          bool_decide (to_string (get r "Month") ∈ FISCAL_MONTHS))
                yearlyRecords)).
    { rewrite <- list_fmap_compose.
      apply (counts_by_key (fun r => to_string (get r "Month"))
               (fun r => is_type r "Training Type" "Qualification")
               yearlyRecords FISCAL_MONTHS).
      apply (bool_decide_unpack _). vm_compute. exact I. }
    rewrite Hsum. clear Hsum Hrun count.
    unfold qualifRealised_total, off_calendar.
    induction yearlyRecords as [|r l IH]; simpl; [done|].
    destruct (is_type r "Training Type" "Qualification"); simpl; [|done].
    destruct (bool_decide (_ ∈ FISCAL_MONTHS)); simpl; lia.
Qed.

Lemma record_step_dom monthlyData r monthlyData' :
  record_step monthlyData r = Normal monthlyData' ->
  dom monthlyData' = dom monthlyData.
Proof.
  unfold record_step, read.
  destruct (monthlyData !! to_string (get r "Month")) as [b|] eqn:Hb.
  - assert (Hin : to_string (get r "Month") ∈ dom monthlyData)
      by (apply elem_of_dom; eauto).
    destruct (is_type r "Training Type" "Qualification");
      [|destruct (is_type r "Training Type" "Refreshment")];
      intros [= <-]; rewrite ?dom_insert_L; set_solver.
  - destruct (inherited _); [|by intros [= <-]].
    destruct (_ || _); [discriminate|by intros [= <-]].
Qed.

Lemma plan_step_dom monthlyData p monthlyData' :
  plan_step monthlyData p = Normal monthlyData' ->
  dom monthlyData' = dom monthlyData.
Proof.
  unfold plan_step, read.
  destruct (get p "plannedDate") as [| | | |s|]; try discriminate.
  set (month := toLocaleString_month _).
  destruct (monthlyData !! month) as [b|] eqn:Hb.
  - assert (Hin : month ∈ dom monthlyData) by (apply elem_of_dom; eauto).
    destruct (is_type p "trainingType" "Qualification");
      [|destruct (is_type p "trainingType" "Refreshment")];
      try (destruct (length_of _); [|discriminate]); simpl;
      intros [= <-]; rewrite ?dom_insert_L; set_solver.
  - destruct (inherited _); [|by intros [= <-]].
    destruct (_ || _); [|by intros [= <-]].
    destruct (length_of _); [|discriminate]. by intros [= <-].
Qed.

Lemma forEach_dom {A} (step : gmap string MonthData -> A ->
                              completion (gmap string MonthData)) l :
  (forall md x md', step md x = Normal md' -> dom md' = dom md) ->
  forall md md', forEach step md l = Normal md' -> dom md' = dom md.
Proof.
  intros Hstep. induction l as [|x l IH]; intros md md'; simpl.
  - by intros [= <-].
  - destruct (step md x) as [md1|] eqn:H1; [|discriminate].
    intros Hrest. rewrite (IH _ _ Hrest). eauto.
Qed.

Lemma record_step_ignores monthlyData r :
  dom monthlyData = list_to_set FISCAL_MONTHS ->
  reaches_table r = false ->
  record_step monthlyData r = Normal monthlyData.
Proof.
  intros Hdom. unfold reaches_table, record_step, read.
  set (month := to_string (get r "Month")).
  destruct (is_type r "Training Type" "Qualification"); simpl.
  - intros [Hmonth Hinh]%orb_false_elim. rewrite Hinh.
    apply bool_decide_eq_false in Hmonth.
    destruct (monthlyData !! month) as [b|] eqn:Hb; [|done].
    exfalso. apply Hmonth, (elem_of_list_to_set (C := gset string)).
    rewrite <- Hdom. apply elem_of_dom. eauto.
  - destruct (is_type r "Training Type" "Refreshment"); simpl.
    + intros [Hmonth Hinh]%orb_false_elim. rewrite Hinh.
      apply bool_decide_eq_false in Hmonth.
      destruct (monthlyData !! month) as [b|] eqn:Hb; [|done].
      exfalso. apply Hmonth, (elem_of_list_to_set (C := gset string)).
      rewrite <- Hdom. apply elem_of_dom. eauto.
    + intros _. by destruct (monthlyData !! month), (inherited month).
Qed.

Lemma initial_monthlyData_dom :
  dom initial_monthlyData = list_to_set FISCAL_MONTHS.
Proof. apply (bool_decide_unpack _). vm_compute. exact I. Qed.

(** X25. The yearly tables are those of the Qualification and Refreshment
    records of the fiscal months: a record of another training type, or of
    a month that is neither a fiscal month nor the name of a member of
    [Object.prototype], leaves no trace in them, nor does it change
    whether the computation throws. *)
Theorem calculateMonthlyData_ignores_other_records
    (yearlyRecords yearlyPlannedSessions : list obj) :
  calculateMonthlyData (List.filter reaches_table yearlyRecords)
    yearlyPlannedSessions =
  calculateMonthlyData yearlyRecords yearlyPlannedSessions.
Proof.
  unfold calculateMonthlyData.
  destruct (forEach plan_step _ _) as [md0|] eqn:Hplans; [|done]. simpl.
  assert (Hdom : dom md0 = list_to_set FISCAL_MONTHS).
  { rewrite <- initial_monthlyData_dom.
    eapply forEach_dom; [apply plan_step_dom|exact Hplans]. }
  clear Hplans. revert md0 Hdom.
  induction yearlyRecords as [|r l IH]; intros md Hdom; simpl; [done|].
  destruct (reaches_table r) eqn:Hr; simpl.
  - destruct (record_step md r) as [md1|] eqn:Hstep; [|done].
    apply IH. by rewrite (record_step_dom _ _ _ Hstep).
  - rewrite record_step_ignores by done. by apply IH.
Qed.

(** ** Counting trainees *)

Lemma Set_add_length s v :
  (length s <= length (Set_add s v) <= S (length s))%nat /\
  (0 < length (Set_add s v))%nat.
Proof.
  unfold Set_add, Set_has. destruct (existsb _ s) eqn:Hhas.
  - split; [lia|]. destruct s; [discriminate|simpl; lia].
  - rewrite length_app. simpl. lia.
Qed.

Lemma foldl_Set_add_length l s :
  (length s <= length (foldl Set_add s l) <= length s + length l)%nat /\
  (l ≠ [] -> 0 < length (foldl Set_add s l))%nat.
Proof.
  revert s. induction l as [|v l IH]; intros s; simpl; [split; [lia|done]|].
  destruct (IH (Set_add s v)) as [Hle _].
  pose proof (Set_add_length s v). split; [lia|]. intros _. lia.
Qed.

(** X26. On the dashboard, the trainees counted are at most the sessions,
    and none is counted exactly when the log is empty; the average per
    trainee is then the text "0", beside a total of "0.00" hours. *)
Theorem renderKPIs_counts (records : list obj) :
  let kpis := renderKPIs records in
  (kpi_unique_trainees kpis <= kpi_total_sessions kpis)%nat /\
  (kpi_unique_trainees kpis = 0%nat <-> records = []) /\
  (records = [] -> kpi_avg_hours kpis = "0" /\ kpi_total_hours kpis = "0.00").
Proof.
  unfold renderKPIs, Set_size, Set_of. simpl.
  pose proof (foldl_Set_add_length
                ((fun r => get r "Trainee's ID Number") <$> records) [])
    as [Hle Hpos].
  rewrite length_fmap in Hle. simpl in Hle.
  split; [lia|]. split; [split|].
  - intros Hzero. destruct records as [|r l]; [done|].
    assert (0 < 0)%nat; [|lia]. rewrite <- Hzero at 2. by apply Hpos.
  - by intros ->.
  - by intros ->.
Qed.

Lemma Set_has_strings names t :
  Set_has (VStr <$> names) (VStr t) = bool_decide (t ∈ names).
Proof.
  unfold Set_has. induction names as [|n names IH]; [done|].
  rewrite fmap_cons. cbn [existsb same_value_zero strict_eq]. rewrite IH.
  destruct (String.eqb_spec n t) as [->|Hne]; cbn [orb].
  - by rewrite bool_decide_eq_true_2 by left.
  - apply bool_decide_ext. rewrite elem_of_cons. naive_solver.
Qed.

Lemma foldl_Set_add_strings names seen :
  NoDup seen ->
  exists seen',
    foldl Set_add (VStr <$> seen) (VStr <$> names) = VStr <$> seen' /\
    NoDup seen' /\
    (forall x, x ∈ seen' <-> x ∈ seen \/ x ∈ names).
Proof.
  revert seen. induction names as [|n names IH]; intros seen Hnd; simpl.
  - exists seen. split; [done|]. split; [done|]. intros x.
    rewrite elem_of_nil. naive_solver.
  - unfold Set_add at 2. rewrite Set_has_strings.
    destruct (bool_decide_reflect (n ∈ seen)) as [Hin|Hnin].
    + destruct (IH seen Hnd) as (seen' & Heq & Hnd' & Hall).
      exists seen'. split; [done|]. split; [done|]. intros x.
      rewrite Hall, elem_of_cons. naive_solver.
    + destruct (IH (seen ++ [n])) as (seen' & Heq & Hnd' & Hall).
      { apply NoDup_app. split; [done|]. split; [|apply NoDup_singleton].
        intros x Hx ->%list_elem_of_singleton. done. }
      exists seen'. rewrite fmap_app in Heq. split; [done|]. split; [done|].
      intros x. rewrite Hall, elem_of_app, !elem_of_cons, elem_of_nil.
      naive_solver.
Qed.

Lemma Set_of_strings_size names :
  Set_size (Set_of (VStr <$> names)) = size (list_to_set names : gset string).
Proof.
  destruct (foldl_Set_add_strings names [] (NoDup_nil_2 (A := string)))
    as (seen' & Heq & Hnd & Hall).
  simpl in Heq. unfold Set_size, Set_of. rewrite Heq, length_fmap.
  rewrite <- (size_list_to_set (C := gset string)) by done.
  f_equal. apply set_eq. intros x. rewrite !elem_of_list_to_set, Hall.
  rewrite elem_of_nil. naive_solver.
Qed.

Lemma string_ids (l : list obj) :
  Forall has_string_id l ->
  (fun r => get r "Trainee's ID Number") <$> l = VStr <$> (id_name <$> l).
Proof.
  induction 1 as [|r l [t Ht] _ IH]; [done|].
  rewrite !fmap_cons, IH. unfold id_name. by rewrite Ht.
Qed.

Lemma Forall_list_filter {A} (Q : A -> Prop) (p : A -> bool) l :
  Forall Q l -> Forall Q (List.filter p l).
Proof.
  induction 1 as [|x l Hx _ IH]; simpl; [constructor|].
  destruct (p x); [by constructor|done].
Qed.

Lemma distinct_ids_subset (p q : obj -> bool) (l : list obj) :
  (forall r, p r = true -> q r = true) ->
  Forall has_string_id l ->
  (Set_size (Set_of ((fun r => get r "Trainee's ID Number") <$> List.filter p l)) <=
   Set_size (Set_of ((fun r => get r "Trainee's ID Number") <$> List.filter q l)))%nat.
Proof.
  intros Hpq Hall.
  rewrite !string_ids by by apply Forall_list_filter.
  rewrite !Set_of_strings_size. apply subseteq_size.
  intros x. rewrite !elem_of_list_to_set, !list_elem_of_fmap.
  intros (r & -> & Hr). exists r. split; [done|].
  apply list_elem_of_In, List.filter_In in Hr as [Hin Hp].
  apply list_elem_of_In, List.filter_In. auto.
Qed.

(** X27. When the trainee identifiers of the log are strings, the dashboard
    counts the distinct identifiers: a trainee with several sessions is
    counted once. *)
Theorem renderKPIs_distinct_trainees (records : list obj) :
  Forall has_string_id records ->
  kpi_unique_trainees (renderKPIs records) =
  size (list_to_set (id_name <$> records) : gset string).
Proof.
  intros Hall. unfold renderKPIs. simpl.
  by rewrite string_ids, Set_of_strings_size.
Qed.

(** X28. In the table of trained operators, the total row is no sum of
    the months: it counts the distinct operators of the year. With string
    identifiers, the operators qualified in a fiscal month are at most
    those of the total row, which are at most the operators of the KPI
    card; so are the refreshed ones. *)
Theorem operators_total_row
    (yearlyRecords yearlyPlannedSessions : list obj) monthlyData month data :
  Forall has_string_id yearlyRecords ->
  calculateMonthlyData yearlyRecords yearlyPlannedSessions = Normal monthlyData ->
  month ∈ FISCAL_MONTHS ->
  monthlyData !! month = Some data ->
  let counts := yearly_operator_counts yearlyRecords in
  (Set_size (operatorsQual data) <= counts.1.2)%nat /\
  (counts.1.2 <= counts.1.1)%nat /\
  (counts.2 <= counts.1.1)%nat.
Proof.
  intros Hall Hrun Hmonth Hdata.
  destruct (calculateMonthlyData_qual_view _ _ _ _ Hrun Hmonth)
    as (data' & Hdata' & Hops & _).
  rewrite Hdata in Hdata'. injection Hdata' as <-.
  unfold yearly_operator_counts. simpl. rewrite Hops.
  assert (Hwhole : forall l : list obj, List.filter (fun _ => true) l = l).
  { induction l as [|x l IH]; simpl; by rewrite ?IH. }
  split; [|split].
  - apply distinct_ids_subset; [|done].
    unfold qualified_in. by intros r [_ ?]%andb_prop.
  - rewrite <- (Hwhole yearlyRecords) at 2. by apply distinct_ids_subset.
  - rewrite <- (Hwhole yearlyRecords) at 2. by apply distinct_ids_subset.
Qed.

(** ** The records of a fiscal year *)

Lemma fiscal_label_eqb (a b : Z) :
  String.eqb ("FY " +:+ pretty a) ("FY " +:+ pretty b) = (a =? b).
Proof.
  destruct (Z.eqb_spec a b) as [->|Hne].
  - apply String.eqb_refl.
  - apply String.eqb_neq. intros Heq. apply Hne.
    by apply (inj (String.app "FY ")), (inj pretty) in Heq.
Qed.

Lemma in_fiscal_year_label Y r s :
  get r "Training Date" = VStr s ->
  String.eqb (getFiscalYear (DateObj (Date_parse (Str.replace_dashes s))))
             ("FY " +:+ pretty Y) =
  in_fiscal_year Y r.
Proof.
  intros Hs. unfold in_fiscal_year. rewrite Hs.
  destruct (Date_parse _) as [|y m d]; [done|].
  change (getFiscalYear (DateObj (LocalDate y m d)))
    with ("FY " +:+ pretty (if m >=? 6 then y else y - 1)).
  rewrite fiscal_label_eqb, Z.geb_leb.
  destruct (Z.leb_spec 6 m), (Z.eqb_spec y Y), (Z.eqb_spec y (Y + 1)),
    (Z.leb_spec m 5); simpl; lia.
Qed.

(** X29. The report of the fiscal year Y is made of the records dated from
    July of the year Y to June of the year after, in the order of the log;
    a record whose date does not parse is in the report of no year. When
    some record has no date to call [replace] on, the report throws. *)
Theorem yearlyRecords_of_selects (Y : Z) (log : list obj) :
  (Forall dated log ->
   yearlyRecords_of ("FY " +:+ pretty Y) log =
   Normal (List.filter (in_fiscal_year Y) log)) /\
  (Exists (fun r => ¬ dated r) log ->
   exists e, yearlyRecords_of ("FY " +:+ pretty Y) log = Throw e).
Proof.
  split.
  - induction 1 as [|r l [s Hs] _ IH]; [done|].
    cbn [yearlyRecords_of].
    rewrite Hs, IH, (in_fiscal_year_label Y r s Hs). simpl.
    by destruct (in_fiscal_year Y r).
  - induction 1 as [r l Hr|r l _ [e IH]]; simpl.
    + destruct (get r "Training Date") as [| | | |s|] eqn:Hs; eauto.
      exfalso. apply Hr. by exists s.
    + destruct (get r "Training Date"); eauto. rewrite IH. simpl. eauto.
Qed.

End Views.

(** * The further properties at concrete inputs *)

Lemma deleteRecord_absent_witness :
  exists w',
    deleteRecord (P := Sample.platform) (VStr "42") Sample.world = (Normal tt, w') /\
    service w' = Sample.dataService.
Proof.
  apply (deleteRecord_absent (P := Sample.platform) (VStr "42") Sample.world).
  repeat constructor.
Defined.

Lemma addRecord_then_lookup_witness :
  exists enriched w',
    addRecord (P := Sample.platform) 1700000000000 0.5 Sample.january_31
      Sample.world = (Normal tt, w') /\
    trainingData (service w') = [enriched; Sample.logged] /\
    getRecordById (service w') (get enriched "Id") = Some enriched /\
    get enriched "Trainer" = VStr "Alice".
Proof.
  destruct (addRecord_then_lookup (P := Sample.platform) 1700000000000 0.5
              Sample.january_31 Sample.world)
    as (enriched & w' & Hrun & Hlog & _ & Hfind & Htrainer);
    [by exists "2024-01-31"|].
  exists enriched, w'. auto.
Defined.

Lemma undated_record_changes_nothing_witness :
  (exists e,
     addRecord (P := Sample.platform) 1700000000000 0.5 Sample.undated
       Sample.world = (Throw e, Sample.world)) /\
  (exists outcome,
     updateRecord (P := Sample.platform) Sample.undated Sample.world =
       (outcome, Sample.world)).
Proof.
  apply (undated_record_changes_nothing (P := Sample.platform)).
  intros [s Hs]. discriminate Hs.
Defined.

Lemma completed_writes_are_persisted_witness :
  persisted (P := Sample.platform)
    (deleteRecord (P := Sample.platform) (VStr "17000000000000.25")
       Sample.world).2.
Proof.
  destruct (completed_writes_are_persisted (P := Sample.platform) Sample.world
              (deleteRecord (P := Sample.platform) (VStr "17000000000000.25")
                 Sample.world).2)
    as (_ & Hdelete & _); [reflexivity|].
  apply (Hdelete (VStr "17000000000000.25")). vm_compute. reflexivity.
Defined.

Lemma addRecord_on_full_storage_witness :
  exists enriched w',
    addRecord (P := Sample.full_platform) 1700000000000 0.5 Sample.january_31
      Sample.world = (Normal tt, w') /\
    trainingData (service w') = [enriched; Sample.logged] /\
    localStorage w' = ∅ /\
    console w' = [ "Failed to save data for key trainingData";
                   "Failed to save data for key plannedSessions" ].
Proof.
  apply (addRecord_on_full_storage (P := Sample.full_platform) 1700000000000 0.5
           Sample.january_31 Sample.world); [reflexivity|].
  by exists "2024-01-31".
Defined.

Lemma _enrichRecord_idempotent_witness :
  exists enriched,
    _enrichRecord (P := Sample.platform) Sample.dataService Sample.january_31 =
      Normal enriched /\
    _enrichRecord (P := Sample.platform) Sample.dataService enriched =
      Normal enriched.
Proof.
  destruct (_enrichRecord_completes (P := Sample.platform) Sample.dataService
              Sample.january_31 "2024-01-31" eq_refl) as (enriched & He & _).
  exists enriched. split; [exact He|].
  exact (_enrichRecord_idempotent (P := Sample.platform) _ _ _ He).
Defined.

Lemma writes_keep_the_log_enriched_witness :
  Forall (fun w' : World =>
            Forall (is_enriched (P := Sample.platform) (service w'))
                   (trainingData (service w')))
    [ (addRecord (P := Sample.platform) 1700000000000 0.5 Sample.edit_by_bob
         Sample.world).2;
      (updateRecord (P := Sample.platform) Sample.edit_by_bob Sample.world).2;
      (deleteRecord (P := Sample.platform) (VStr "42") Sample.world).2 ].
Proof.
  apply (writes_keep_the_log_enriched (P := Sample.platform) 1700000000000 0.5
           Sample.edit_by_bob (VStr "42") Sample.world).
  repeat constructor.
Defined.

Lemma addPlan_appends_witness :
  exists stored w',
    addPlan (P := Sample.platform) 1700000000000 Sample.plan_form Sample.planning =
      (Normal tt, w') /\
    plannedSessions (service w') = Sample.july_plans ++ [stored] /\
    get stored "Month" = VStr "August" /\
    getPlanById (service w') (get stored "Id") = List.head Sample.july_plans.
Proof.
  destruct (addPlan_appends (P := Sample.platform) 1700000000000 Sample.plan_form
              "2024-08-20" Sample.planning eq_refl)
    as (stored & w' & Hrun & Hplans & Hid & Hmonth & _ & Hfind).
  exists stored, w'. rewrite Hfind, Hid. auto.
Defined.

Lemma updatePlan_replaces_witness :
  exists w',
    updatePlan (P := Sample.platform) Sample.plan_edit Sample.planning =
      (Normal tt, w') /\
    getPlanById (service w') (VStr "1700000000000") =
      Some (<["Month" := VStr "August"]> Sample.plan_edit).
Proof.
  destruct (updatePlan_replaces (P := Sample.platform) Sample.plan_edit
              (default ∅ (List.head Sample.july_plans)) "2024-08-20"
              Sample.planning eq_refl eq_refl) as (w' & Hrun & Hfind & _).
  exists w'. auto.
Defined.

Lemma updatePlan_changes_nothing_witness :
  exists outcome,
    updatePlan (P := Sample.platform) (<["Id" := VStr "42"]> Sample.plan_form)
      Sample.planning = (outcome, Sample.planning).
Proof.
  apply (updatePlan_changes_nothing (P := Sample.platform)).
  left. repeat constructor.
Defined.

Lemma getEmployeeById_ignores_padding_witness :
  getEmployeeById (P := Sample.platform) Sample.dataService (VStr "  1002 ") =
  getEmployeeById (P := Sample.platform) Sample.dataService (VStr "1002").
Proof.
  apply (getEmployeeById_ignores_padding (P := Sample.platform)
           Sample.dataService "  1002 ").
  discriminate.
Defined.

Lemma realised_rows_against_total_witness :
  exists monthlyData rows,
    calculateMonthlyData (P := Sample.platform) Sample.july Sample.july_plans =
      Normal monthlyData /\
    qualifRealised_rows monthlyData = Normal rows /\
    rows.*1 = FISCAL_MONTHS /\
    sum_list rows.*2 = 3%nat.
Proof.
  destruct (calculateMonthlyData_completes (P := Sample.platform)
              Sample.july Sample.july_plans) as (monthlyData & Hrun).
  - repeat constructor; eexists; reflexivity.
  - repeat constructor; decide_elem.
  - destruct (realised_rows_against_total (P := Sample.platform) _ _ _ Hrun)
      as (rows & Hrows & Hmonths & Hsum).
    exists monthlyData, rows. split; [exact Hrun|]. split; [exact Hrows|].
    split; [exact Hmonths|].
    change (length (List.filter off_calendar Sample.july)) with 0%nat in Hsum.
    change (qualifRealised_total Sample.july) with 3%nat in Hsum. lia.
Defined.

Lemma renderKPIs_distinct_trainees_witness :
  kpi_total_sessions (renderKPIs (P := Sample.platform) Sample.july) = 4%nat /\
  kpi_unique_trainees (renderKPIs (P := Sample.platform) Sample.july) = 2%nat.
Proof.
  split; [reflexivity|].
  rewrite (renderKPIs_distinct_trainees (P := Sample.platform) Sample.july).
  - vm_compute. reflexivity.
  - repeat constructor; eexists; reflexivity.
Defined.

Lemma operators_total_row_witness :
  exists monthlyData data,
    calculateMonthlyData (P := Sample.platform) Sample.july Sample.july_plans =
      Normal monthlyData /\
    monthlyData !! "July" = Some data /\
    yearly_operator_counts Sample.july = (2, 2, 1)%nat /\
    (Set_size (operatorsQual data) <= 2)%nat.
Proof.
  destruct (calculateMonthlyData_completes (P := Sample.platform)
              Sample.july Sample.july_plans) as (monthlyData & Hrun).
  - repeat constructor; eexists; reflexivity.
  - repeat constructor; decide_elem.
  - destruct (calculateMonthlyData_qual_view (P := Sample.platform) _ _ _ "July"
                Hrun) as (data & Hdata & _); [decide_elem|].
    destruct (operators_total_row (P := Sample.platform) Sample.july
                Sample.july_plans monthlyData "July" data) as (Hmonth & _);
      [repeat constructor; eexists; reflexivity | exact Hrun | decide_elem
      | exact Hdata |].
    exists monthlyData, data. split; [exact Hrun|]. split; [exact Hdata|].
    split; [vm_compute; reflexivity|exact Hmonth].
Defined.
